(** * wikipedia_scraper_tool: a shallow embedding and its verified properties

    The program is sequential glue over three libraries (requests, pandas /
    BeautifulSoup, matplotlib).  The embedding keeps the control flow of the
    four functions of [wikipedia_scraper_tool.py] and replaces each library call
    by a small executable model of the part of its behaviour the program
    relies on:

    - text is ASCII ([string]); [\d], [\w] and whitespace are the ASCII
      classes;
    - a numeric cell holds the number pandas stores: an exact rational
      ([Q]: every finite value of int64 and float64 is one) or one of the two
      infinities of float64; the mean of a column is its exact mean, which
      the program prints rounded to two decimals;
    - what a library decides is an input of the model (a field of [Web]): the
      outcome of a network request, of [pd.read_html], of the html5lib parser,
      of each plotting and file call, the number [pd.to_numeric] reads from a
      text, the text [astype(str)] writes for a number, and the dtype pandas
      has recorded for a column;
    - printing is a log of [Event]s; exceptions are values of [Exn]. *)

From Stdlib Require Import List String Ascii ZArith QArith Lia Bool Arith.
From Stdlib Require Import Permutation Sorted DecimalString DecimalPos.
Import ListNotations.

Local Open Scope string_scope.
Local Open Scope list_scope.
Local Open Scope nat_scope.

(** ** Text: the string operations the program applies *)

Definition is_digit (c : ascii) : bool :=
  let n := nat_of_ascii c in (48 <=? n) && (n <=? 57).

(** Characters removed by [str.strip()] (ASCII part of [str.isspace]). *)
Definition is_space (c : ascii) : bool :=
  let n := nat_of_ascii c in
  ((9 <=? n) && (n <=? 13)) || ((28 <=? n) && (n <=? 32)).

(** [\w] of the [re] module, ASCII part: letters, digits, underscore. *)
Definition is_word (c : ascii) : bool :=
  let n := nat_of_ascii c in
  ((48 <=? n) && (n <=? 57)) || ((65 <=? n) && (n <=? 90))
  || ((97 <=? n) && (n <=? 122)) || (n =? 95).

Fixpoint lstrip (s : string) : string :=
  match s with
  | String c t => if is_space c then lstrip t else s
  | EmptyString => EmptyString
  end.

Fixpoint rstrip (s : string) : string :=
  match s with
  | String c t =>
      match rstrip t with
      | EmptyString => if is_space c then EmptyString else String c EmptyString
      | r => String c r
      end
  | EmptyString => EmptyString
  end.

(** [s.strip()] *)
Definition strip (s : string) : string := rstrip (lstrip s).

(** [needle in s] for two strings. *)
Fixpoint contains (needle s : string) : bool :=
  String.prefix needle s
  || match s with
     | String _ t => contains needle t
     | EmptyString => false
     end.

(** [str.replace(',', '', regex=True)]: the pattern is the literal comma. *)
Fixpoint remove_commas (s : string) : string :=
  match s with
  | String c t =>
      if Ascii.eqb c "," then remove_commas t else String c (remove_commas t)
  | EmptyString => EmptyString
  end.

Fixpoint skip_digits (s : string) : nat * string :=
  match s with
  | String c t =>
      if is_digit c then let (n, r) := skip_digits t in (S n, r) else (0, s)
  | EmptyString => (0, s)
  end.

(** Length of the match of [\[\d+\]] that starts at the head of [s], if there
    is one.  [\d+] is greedy and no digit is a closing bracket, so the match is
    unique. *)
Definition marker_length (s : string) : option nat :=
  match s with
  | String c t =>
      if Ascii.eqb c "[" then
        match skip_digits t with
        | (S n, String c' _) =>
            if Ascii.eqb c' "]" then Some (S n + 2) else None
        | _ => None
        end
      else None
  | EmptyString => None
  end.

(** [re.sub(r'\[\d+\]', '', s)]: scan from the left; where a match starts, the
    matched characters are skipped ([skip] counts those still to skip), and
    elsewhere the character is kept. *)
Fixpoint sub_markers (skip : nat) (s : string) : string :=
  match s with
  | EmptyString => EmptyString
  | String c t =>
      match skip with
      | S k => sub_markers k t
      | O =>
          match marker_length s with
          | Some n => sub_markers (n - 1) t
          | None => String c (sub_markers 0 t)
          end
      end
  end.

(** [str.replace(r'\[\d+\]', '', regex=True)] *)
Definition remove_footnotes (s : string) : string := sub_markers 0 s.

Definition digit_value (c : ascii) : Z := Z.of_nat (nat_of_ascii c - 48).

Fixpoint parse_digits_from (acc : Z) (s : string) : option Z :=
  match s with
  | EmptyString => Some acc
  | String c t =>
      if is_digit c then parse_digits_from (10 * acc + digit_value c)%Z t
      else None
  end.

(** A non-empty run of decimal digits, read as a number. *)
Definition parse_digits (s : string) : option Z :=
  match s with
  | EmptyString => None
  | _ => parse_digits_from 0%Z s
  end.

(** A reader of integer literals: optional surrounding whitespace, optional
    sign, decimal digits.  It is the coercion of the sample worlds below,
    which hold integer literals and texts without digits only. *)
Definition integer_literal (s : string) : option Z :=
  match strip s with
  | String c t =>
      if Ascii.eqb c "-" then option_map Z.opp (parse_digits t)
      else if Ascii.eqb c "+" then parse_digits t
      else parse_digits (String c t)
  | EmptyString => None
  end.

(** [str(z)] for an integer. *)
Definition str_of_Z (z : Z) : string := NilZero.string_of_int (Z.to_int z).

(** ** Data model: cells, column index, frames *)

(** The value of a numeric cell: a finite number, or one of the infinities of
    float64 (the number [pd.to_numeric] reads from "inf" and from "-inf"). *)
Inductive Number : Type :=
| Finite (q : Q)
| Infinite (negative : bool).

Coercion Finite : Q >-> Number.
Bind Scope Q_scope with Number.

Inductive Cell : Type :=
| CStr (s : string)     (* a text cell *)
| CNum (x : Number)     (* a numeric cell *)
| CNaN.                 (* a missing value *)

(** Column labels of a frame.  [pd.read_html] gives text labels to a table
    with a header row and integer labels [0..n-1] to a table without one. *)
Inductive Index : Type :=
| StrIndex (names : list string)
| IntIndex (labels : list Z).

Record Row : Type := mkRow { label : nat; cells : list Cell }.

Record DataFrame : Type := mkFrame { columns : Index; rows : list Row }.

(** [pd.DataFrame()] *)
Definition empty_frame : DataFrame := mkFrame (IntIndex []) [].

Definition index_length (i : Index) : nat :=
  match i with
  | StrIndex names => List.length names
  | IntIndex labels => List.length labels
  end.

(** [df.empty]: some axis has length zero. *)
Definition empty (df : DataFrame) : bool :=
  (index_length (columns df) =? 0) || (List.length (rows df) =? 0).

(** [name in df.columns] for a text [name]. *)
Definition has_column (name : string) (i : Index) : bool :=
  match i with
  | StrIndex names => existsb (String.eqb name) names
  | IntIndex _ => false
  end.

(** Position of the first column called [name]; it is the column [df[name]]
    when the labels are unique, as the statements about the renderer take
    them to be. *)
Fixpoint position (name : string) (names : list string) : option nat :=
  match names with
  | [] => None
  | n :: t =>
      if String.eqb name n then Some 0 else option_map S (position name t)
  end.

(** The cell of a row in column number [k]. *)
Definition cell_at (k : nat) (r : Row) : Cell := nth k (cells r) CNaN.

Fixpoint update {A : Type} (k : nat) (x : A) (l : list A) : list A :=
  match l, k with
  | [], _ => []
  | _ :: t, O => x :: t
  | y :: t, S k' => y :: update k' x t
  end.

Definition set_cell (k : nat) (c : Cell) (r : Row) : Row :=
  mkRow (label r) (update k c (cells r)).

(** [df[col]]: the values of column [k], one per row. *)
Definition get_column (k : nat) (df : DataFrame) : list Cell :=
  map (cell_at k) (rows df).

Fixpoint assign_rows (k : nat) (vs : list Cell) (rs : list Row) : list Row :=
  match rs, vs with
  | r :: rs', v :: vs' => set_cell k v r :: assign_rows k vs' rs'
  | _, _ => rs
  end.

(** [df[col] = series]: column [k] is overwritten in place, row by row. *)
Definition set_column (k : nat) (vs : list Cell) (df : DataFrame) : DataFrame :=
  mkFrame (columns df) (assign_rows k vs (rows df)).

(** [series.str.f(...)] applies [f] to text values; other values are missing
    in the result. *)
Definition str_apply (f : string -> string) (c : Cell) : Cell :=
  match c with
  | CStr s => CStr (f s)
  | _ => CNaN
  end.

Definition isna (c : Cell) : bool :=
  match c with CNaN => true | _ => false end.

(** [df.dropna(subset=[col], inplace=True)] *)
Definition dropna (k : nat) (df : DataFrame) : DataFrame :=
  mkFrame (columns df) (filter (fun r => negb (isna (cell_at k r))) (rows df)).

(** The number in column [k] of a row of a numeric column. *)
Definition num_at (k : nat) (r : Row) : Number :=
  match cell_at k r with CNum x => x | _ => Finite 0 end.

(** [x <= y] on the values of a numeric column. *)
Definition num_le_bool (x y : Number) : bool :=
  match x, y with
  | Finite a, Finite b => Qle_bool a b
  | Infinite true, _ => true
  | _, Infinite false => true
  | _, _ => false
  end.

(** Stable insertion of a row that stood before all rows of [l]: it goes in
    front of the first row that is not larger. *)
Fixpoint insert_desc (k : nat) (x : Row) (l : list Row) : list Row :=
  match l with
  | [] => [x]
  | y :: t =>
      if num_le_bool (num_at k y) (num_at k x) then x :: l
      else y :: insert_desc k x t
  end.

(** [sort_values(col, ascending=False, kind='stable')] *)
Fixpoint sort_desc (k : nat) (l : list Row) : list Row :=
  match l with
  | [] => []
  | x :: t => insert_desc k x (sort_desc k t)
  end.

(** [df.nlargest(n, col)], with the default [keep='first']: the first [n] rows
    in descending order of the column, missing values left out, ties in their
    original order. *)
Definition nlargest (n k : nat) (df : DataFrame) : DataFrame :=
  mkFrame (columns df)
    (firstn n (sort_desc k (filter (fun r => negb (isna (cell_at k r))) (rows df)))).

Definition numbers (k : nat) (df : DataFrame) : list Number :=
  flat_map (fun r => match cell_at k r with CNum x => [x] | _ => [] end)
    (rows df).

(** One more value in a sum; [None] is the value that is no number, the sum
    of the two infinities. *)
Definition num_add (x : Number) (s : option Number) : option Number :=
  match s, x with
  | None, _ => None
  | Some (Finite a), Finite b => Some (Finite (b + a))
  | Some (Finite _), Infinite n => Some (Infinite n)
  | Some (Infinite n), Finite _ => Some (Infinite n)
  | Some (Infinite n), Infinite m =>
      if Bool.eqb n m then Some (Infinite n) else None
  end.

(** [series.mean()]: the sum of the values over their number; the mean of
    no value is missing. *)
Definition mean (xs : list Number) : option Number :=
  match xs with
  | [] => None
  | _ =>
      match fold_right num_add (Some (Finite 0)) xs with
      | Some (Finite total) =>
          Some (Finite (total / inject_Z (Z.of_nat (List.length xs))))
      | other => other
      end
  end.

(** ** Effects: the print log, exceptions, and the outside world *)

(** What the program prints or draws, in order. *)
Inductive Event : Type :=
| Print (msg : string)
| PrintTablesFound (n : nat)
| PrintAverage (avg : option Number)
| PrintSection (name : string) (paragraphs hyperlinks pictures words : nat)
| Bar (x y : list Cell)
| SaveFig (file : string)
| Show.

(** Exceptions, by the two handlers of the program: the subclasses of
    [requests.exceptions.RequestException], and every other subclass of
    [Exception]; the argument is the text of the exception. *)
Inductive Exn : Type :=
| RequestException (msg : string)
| PyException (msg : string).

(** A computation: what it printed, and either the exception it raised or its
    value. *)
Definition M (A : Type) : Type := (list Event * (Exn + A))%type.

Definition ret {A : Type} (a : A) : M A := ([], inr a).

Definition raise {A : Type} (e : Exn) : M A := ([], inl e).

Definition bind {A B : Type} (m : M A) (k : A -> M B) : M B :=
  match m with
  | (out, inl e) => (out, inl e)
  | (out, inr a) => let (out', r) := k a in (out ++ out', r)
  end.

Notation "x <- m ;; k" := (bind m (fun x => k))
  (at level 61, m at next level, right associativity).
Notation "m ;;; k" := (bind m (fun _ => k))
  (at level 61, right associativity).

Definition print (e : Event) : M unit := ([e], inr tt).

(** The outcome of a library call. *)
Definition call {A : Type} (r : Exn + A) : M A := ([], r).

(** [try: body / except ... as e: handler e] *)
Definition try_except {A : Type} (body : M A) (handler : Exn -> M A) : M A :=
  match body with
  | (out, inl e) => let (out', r) := handler e in (out ++ out', r)
  | (out, inr a) => (out, inr a)
  end.

Record Response : Type := mkResponse { status_code : Z; text : string }.

(** [response.raise_for_status()] *)
Definition raise_for_status (r : Response) : M unit :=
  if ((400 <=? status_code r) && (status_code r <? 600))%Z
  then raise (RequestException ("HTTPError: " ++ str_of_Z (status_code r)))
  else ret tt.

(** The parsed page: an element with its attributes and children, or a run of
    text.  An attribute value is a string, or a list of strings for the
    multi-valued attributes ([class]). *)
Inductive AttrValue : Type :=
| AStr (s : string)
| AList (l : list string).

#[warnings="-register-all"] Inductive Node : Type :=
| Element (name : string) (attrs : list (string * AttrValue))
    (children : list Node)
| NavigableString (s : string).

(** What the program cannot decide by itself: the answer of the network, and
    what the libraries make of their arguments.

    - [astype_str c]: what [series.astype(str)] makes of a cell that is not
      text (a number is written in the form of its dtype, "70" or "70.0");
    - [to_numeric column s]: the number [pd.to_numeric(_, errors='coerce')]
      stores for the text [s] in a series holding the texts [column] (finite
      or infinite), [None] for a missing value; the number depends on the
      series, whose dtype is int64 or float64 according to its other values;
    - [dtype_object df j]: whether the dtype pandas has recorded for column
      number [j] of [df] is [object];
    - [plt_figure], [pyplot x y]: the outcome of lines 82-83 and of lines
      85-92; [script_dir]: the directory of the script; [makedirs], [savefig]
      and [show]: the outcome of lines 97-98, 102 and 105. *)
Record Web : Type := mkWeb {
  requests_get : string -> Exn + Response;
  read_html : string -> Exn + list DataFrame;
  BeautifulSoup : string -> Exn + Node;
  astype_str : Cell -> Cell;
  to_numeric : list string -> string -> option Number;
  dtype_object : DataFrame -> nat -> bool;
  plt_figure : option Exn;
  pyplot : list Cell -> list Cell -> option Exn;
  script_dir : string;
  makedirs : string -> option Exn;
  savefig : string -> option Exn;
  show : option Exn
}.

(** ** Pipeline 1: table extraction, cleaning and ranking, chart *)

(** [index.str.strip()]: the [.str] accessor exists on an index of text labels
    only. *)
Definition str_strip (i : Index) : Exn + Index :=
  match i with
  | StrIndex names => inr (StrIndex (map strip names))
  | IntIndex _ =>
      inl (PyException "Can only use .str accessor with string values!")
  end.

(** Lines 19-23: the loop over the tables; [Some t] is the early return. *)
Fixpoint first_population_table (tables : list DataFrame)
  : M (option DataFrame) :=
  match tables with
  | [] => ret None
  | table :: rest =>
      cols <- call (str_strip (columns table)) ;;
      let table' := mkFrame cols (rows table) in
      if has_column "Population" (columns table') then
        print (Print "Found the correct table with the 'Population' column.") ;;;
        ret (Some table')
      else first_population_table rest
  end.

(** Lines 12-26: the body of the [try]. *)
Definition scrape_body (w : Web) (url : string) : M DataFrame :=
  response <- call (requests_get w url) ;;
  raise_for_status response ;;;
  tables <- call (read_html w (text response)) ;;
  print (PrintTablesFound (List.length tables)) ;;;
  found <- first_population_table tables ;;
  match found with
  | Some table => ret table
  | None =>
      print (Print "Could not find a table with the 'Population' column.") ;;;
      ret empty_frame
  end.

(** Lines 28-33: the two handlers. *)
Definition scrape_handler (e : Exn) : M DataFrame :=
  match e with
  | RequestException msg =>
      print (Print ("Error accessing the URL: " ++ msg)) ;;; ret empty_frame
  | PyException msg =>
      print (Print ("Error scraping tables: " ++ msg)) ;;; ret empty_frame
  end.

Definition scrape_wiki_tables (w : Web) (url : string) : M DataFrame :=
  print (Print ("Attempting to scrape tables from: " ++ url)) ;;;
  try_except (scrape_body w url) scrape_handler.

(** The argument of the cleaner and of the renderer: a frame, [None], or,
    as an object of another kind, an integer. *)
Inductive PyObj : Type :=
| PyFrame (df : DataFrame)
| PyNone
| PyInt (n : Z).

(** [series.astype(str)] on one value: a text stays as it is. *)
Definition astype_text (w : Web) (c : Cell) : Cell :=
  match c with
  | CStr s => CStr s
  | _ => astype_str w c
  end.

(** The texts of a series. *)
Definition texts (col : list Cell) : list string :=
  flat_map (fun c => match c with CStr s => [s] | _ => [] end) col.

(** [pd.to_numeric(series, errors='coerce')] on one value of a series with
    the texts [column]: a text becomes the number read from it in this
    series, or a missing value. *)
Definition to_numeric_value (w : Web) (column : list string) (c : Cell) : Cell :=
  match c with
  | CStr s =>
      match to_numeric w column s with
      | Some q => CNum q
      | None => CNaN
      end
  | _ => c
  end.

Definition to_numeric_series (w : Web) (col : list Cell) : list Cell :=
  map (to_numeric_value w (texts col)) col.

(** Lines 41-45: the four assignments to [df['Population']] and the
    [dropna], each acting on the frame of the caller. *)
Definition clean_population (w : Web) (k : nat) (df : DataFrame) : DataFrame :=
  let df := set_column k (map (astype_text w) (get_column k df)) df in
  let df := set_column k (map (str_apply remove_commas) (get_column k df)) df in
  let df :=
    set_column k (map (str_apply remove_footnotes) (get_column k df)) df in
  let df := set_column k (to_numeric_series w (get_column k df)) df in
  dropna k df.

(** The positions of the columns called [name], counted from [i]. *)
Fixpoint positions_from (i : nat) (name : string) (names : list string)
  : list nat :=
  match names with
  | [] => []
  | n :: t =>
      (if String.eqb name n then [i] else []) ++ positions_from (S i) name t
  end.

Definition column_positions (name : string) (i : Index) : list nat :=
  match i with
  | StrIndex names => positions_from 0 name names
  | IntIndex _ => []
  end.

(** The outcome of a call of the cleaner: the returned value ([None] for
    Python's [None]), the log, and the state in which the call leaves the
    object it was given. *)
Record Cleaned : Type := mkCleaned {
  returned : option DataFrame;
  argument_after : PyObj;
  printed : list Event
}.

(** Lines 41-53: the body of the [try], with the frame as it leaves it.  With
    one column called "Population", [df['Population']] is a series and the
    steps run.  With several, [df['Population']] is a frame: line 41 rewrites
    all of them as text and line 42 raises, a frame having no [.str]. *)
Definition clean_body (w : Web) (d : DataFrame) : DataFrame * M DataFrame :=
  match column_positions "Population" (columns d) with
  | [k] =>
      let d' := clean_population w k d in
      (d',
       print (Print "Data successfully cleaned and converted to numeric.") ;;;
       let top_10 := nlargest 10 k d' in
       let average_population := mean (numbers k d') in
       print (PrintAverage average_population) ;;;
       ret top_10)
  | ks =>
      (fold_left
         (fun df k => set_column k (map (astype_text w) (get_column k df)) df)
         ks d,
       raise (PyException "'DataFrame' object has no attribute 'str'"))
  end.

(** Lines 55-57. *)
Definition clean_handler (e : Exn) : M (option DataFrame) :=
  match e with
  | RequestException msg | PyException msg =>
      print (Print ("Error during data cleaning or analysis: " ++ msg)) ;;;
      ret None
  end.

Definition clean_and_analyze_population_data (w : Web) (df : PyObj) : Cleaned :=
  let invalid :=
    mkCleaned None df
      [Print "Data is not a valid DataFrame or 'Population' column is missing."]
  in
  match df with
  | PyFrame d =>
      if negb (has_column "Population" (columns d)) then invalid
      else
        let (d', body) := clean_body w d in
        match try_except (top_10 <- body ;; ret (Some top_10)) clean_handler with
        | (out, inr result) => mkCleaned result (PyFrame d') out
        | (out, inl _) => mkCleaned None (PyFrame d') out
        end
  | PyNone | PyInt _ => invalid
  end.

(** Lines 67-70: the first loop over the column labels. *)
Definition country_column (names : list string) : option string :=
  find (fun col => contains "Country" col || contains "Dependency" col) names.

(** Lines 73-76: the second loop; [df[col].dtype == 'object'] asks for the
    dtype of the column called [col]. *)
Definition text_column (w : Web) (df : DataFrame) (names : list string)
  : option string :=
  find (fun col =>
          match position col names with
          | Some k =>
              dtype_object w df k
              && negb (contains "Population" col)
              && negb (contains "Region" col)
              && negb (contains "Date" col)
          | None => false
          end) names.

(** The value of [country_col_name] at line 78, [None] as in the program. *)
Definition label_column (w : Web) (df : DataFrame) (names : list string)
  : option string :=
  match country_column names with
  | Some col => Some col
  | None => text_column w df names
  end.

Fixpoint ends_with (c : ascii) (s : string) : bool :=
  match s with
  | EmptyString => false
  | String x EmptyString => Ascii.eqb x c
  | String _ t => ends_with c t
  end.

(** [os.path.join(a, b)] for a relative [b]. *)
Definition os_path_join (a b : string) : string :=
  if String.eqb a EmptyString || ends_with "/" a then a ++ b
  else a ++ "/" ++ b.

(** Lines 94-100: the directory and the file of the chart. *)
Definition charts_dir (w : Web) : string := os_path_join (script_dir w) "charts".

Definition file_path (w : Web) : string :=
  os_path_join (charts_dir w) "top_10_population.png".

(** The outcome of a call that returns nothing. *)
Definition attempt (r : option Exn) : M unit :=
  match r with
  | Some e => raise e
  | None => ret tt
  end.

(** Lines 65-105: the body of the [try].  Iterating over integer labels, line
    68 asks whether a text is in a number and raises. *)
Definition chart_body (w : Web) (df : DataFrame) : M unit :=
  match columns df with
  | IntIndex _ => raise (PyException "argument of type 'int' is not iterable")
  | StrIndex names =>
      match label_column w df names with
      | None =>
          print (Print
            "Error creating chart: Could not find a suitable column for countries.")
      | Some col =>
          attempt (plt_figure w) ;;;
          match position col names, position "Population" names with
          | Some x, Some y =>
              attempt (pyplot w (get_column x df) (get_column y df)) ;;;
              print (Bar (get_column x df) (get_column y df)) ;;;
              attempt (makedirs w (charts_dir w)) ;;;
              attempt (savefig w (file_path w)) ;;;
              print (SaveFig (file_path w)) ;;;
              print (Print ("Chart saved to: " ++ file_path w)) ;;;
              attempt (show w) ;;;
              print Show
          | _, _ => raise (PyException "'Population'")
          end
      end
  end.

Definition chart_handler (e : Exn) : M unit :=
  match e with
  | RequestException msg | PyException msg =>
      print (Print ("Error creating chart: " ++ msg))
  end.

(** Line 60 stands outside the [try]: an integer is not [None] and has no
    attribute [empty]. *)
Definition create_population_chart (w : Web) (df : PyObj) : M unit :=
  match df with
  | PyNone => print (Print "No data to plot.")
  | PyInt _ => raise (PyException "'int' object has no attribute 'empty'")
  | PyFrame d =>
      if empty d then print (Print "No data to plot.")
      else try_except (chart_body w d) chart_handler
  end.

(** ** Pipeline 2: the section analyzer *)

Definition is_tag (tag : string) (n : Node) : bool :=
  match n with
  | Element name _ _ => String.eqb name tag
  | NavigableString _ => false
  end.

Fixpoint lookup (key : string) (attrs : list (string * AttrValue))
  : option AttrValue :=
  match attrs with
  | [] => None
  | (k, v) :: t => if String.eqb k key then Some v else lookup key t
  end.

(** How the library compares an attribute with a wanted string: equality, and
    for a list of values, one of them or their join. *)
Definition attr_matches (want : string) (v : AttrValue) : bool :=
  match v with
  | AStr s => String.eqb s want
  | AList l =>
      existsb (fun s => String.eqb s want) l
      || String.eqb (String.concat " " l) want
  end.

Definition has_attr (key want : string) (n : Node) : bool :=
  match n with
  | Element _ attrs _ =>
      match lookup key attrs with
      | Some v => attr_matches want v
      | None => false
      end
  | NavigableString _ => false
  end.

(** The nodes below [n], in document order. *)
Fixpoint descendants (n : Node) : list Node :=
  match n with
  | Element _ _ cs =>
      (fix below (l : list Node) : list Node :=
         match l with
         | [] => []
         | c :: rest => c :: descendants c ++ below rest
         end) cs
  | NavigableString _ => []
  end.

(** The nodes below [n], in document order, each with the siblings that
    follow its parent; [after] are the siblings that follow [n] itself. *)
Fixpoint located (after : list Node) (n : Node) : list (Node * list Node) :=
  match n with
  | Element _ _ cs =>
      (fix below (l : list Node) : list (Node * list Node) :=
         match l with
         | [] => []
         | c :: rest => (c, after) :: located rest c ++ below rest
         end) cs
  | NavigableString _ => []
  end.

(** [node.find_all(tag)] *)
Definition find_all (tag : string) (n : Node) : list Node :=
  filter (is_tag tag) (descendants n).

(** [node.find(tag, {key: want})] *)
Definition find_with (tag key want : string) (n : Node) : option Node :=
  find (fun d => is_tag tag d && has_attr key want d) (descendants n).

(** [node.find_next_sibling(tag)], given the siblings that follow the node. *)
Definition find_next_sibling (tag : string) (after : list Node) : option Node :=
  find (is_tag tag) after.

(** [node.text] *)
Fixpoint get_text (n : Node) : string :=
  match n with
  | Element _ _ cs =>
      (fix texts (l : list Node) : string :=
         match l with
         | [] => EmptyString
         | c :: rest => (get_text c ++ texts rest)%string
         end) cs
  | NavigableString s => s
  end.

(** [len(re.findall(r'\w+', s))]: the number of maximal runs of word
    characters; [inside] tells whether the previous character was one. *)
Fixpoint count_words (inside : bool) (s : string) : nat :=
  match s with
  | EmptyString => 0
  | String c t =>
      if is_word c then (if inside then 0 else 1) + count_words true t
      else count_words false t
  end.

Definition sum (l : list nat) : nat := fold_right Nat.add 0 l.

(** The four counts of lines 142-146. *)
Definition section_counts (content_soup : Node) : nat * nat * nat * nat :=
  let paragraphs := find_all "p" content_soup in
  (List.length paragraphs,
   sum (map (fun p => List.length (find_all "a" p)) paragraphs),
   sum (map (fun p => List.length (find_all "img" p)) paragraphs),
   sum (map (fun p => count_words false (get_text p)) paragraphs)).

Definition count_attributes_in_section (section_name : string)
  (content_soup : Node) : M unit :=
  let '(paragraph_count, hyperlink_count, picture_count, word_count) :=
    section_counts content_soup in
  print (PrintSection section_name paragraph_count hyperlink_count
           picture_count word_count).

Definition is_headline (n : Node) : bool :=
  is_tag "span" n && has_attr "class" "mw-headline" n.

(** [soup.find_all('span', {'class': 'mw-headline'})], each heading with the
    siblings that follow its parent. *)
Definition section_headers (soup : Node) : list (Node * list Node) :=
  filter (fun h => is_headline (fst h)) (located [] soup).

(** Lines 128-134: one turn of the loop. *)
Definition analyze_header (h : Node * list Node) : M unit :=
  let (header_span, parent_after) := h in
  let section_name := get_text header_span in
  match find_next_sibling "div" parent_after with
  | Some content_div => count_attributes_in_section section_name content_div
  | None =>
      print (Print ("Could not find content for section: " ++ section_name))
  end.

Fixpoint for_each {A : Type} (f : A -> M unit) (l : list A) : M unit :=
  match l with
  | [] => ret tt
  | x :: t => f x ;;; for_each f t
  end.

(** Lines 112-134: the body of the [try]. *)
Definition analyze_body (w : Web) (url : string) : M unit :=
  response <- call (requests_get w url) ;;
  raise_for_status response ;;;
  soup <- call (BeautifulSoup w (text response)) ;;
  match section_headers soup with
  | [] =>
      print (Print "No main sections found. Analyzing the entire page.") ;;;
      match find_with "div" "id" "mw-content-text" soup with
      | Some body_content =>
          count_attributes_in_section "Main Content" body_content
      | None => ret tt
      end
  | headers => for_each analyze_header headers
  end.

Definition analyze_handler (e : Exn) : M unit :=
  match e with
  | RequestException msg => print (Print ("Error accessing the URL: " ++ msg))
  | PyException msg => print (Print ("An unexpected error occurred: " ++ msg))
  end.

Definition analyze_page_content (w : Web) (url : string) : M unit :=
  print (Print ("Analyzing page content for: " ++ url)) ;;;
  try_except (analyze_body w url) analyze_handler.

(** ** The main block: pipeline 1 once, then the interactive loop *)

Definition population_url : string :=
  "https://en.wikipedia.org/wiki/List_of_countries_and_dependencies_by_population".

(** [c.lower()] for an ASCII character. *)
Definition lower_char (c : ascii) : ascii :=
  let n := nat_of_ascii c in
  if (65 <=? n) && (n <=? 90) then ascii_of_nat (n + 32) else c.

(** [s.lower()] *)
Fixpoint lower (s : string) : string :=
  match s with
  | EmptyString => EmptyString
  | String c t => String (lower_char c) (lower t)
  end.

(** The log of a call becomes part of the log of its caller. *)
Definition tell (out : list Event) : M unit := (out, inr tt).

(** Lines 161-165: what follows the scrape.  The cleaner works on the frame
    the scraper returned; the frame is not used again after the call. *)
Definition after_scrape (w : Web) (population_df : DataFrame) : M unit :=
  if negb (empty population_df) then
    let cleaned :=
      clean_and_analyze_population_data w (PyFrame population_df) in
    tell (printed cleaned) ;;;
    match returned cleaned with
    | Some top_10_countries =>
        create_population_chart w (PyFrame top_10_countries)
    | None => ret tt
    end
  else ret tt.

(** Lines 157-165. *)
Definition population_pipeline (w : Web) : M unit :=
  population_df <- scrape_wiki_tables w population_url ;;
  after_scrape w population_df.

Definition url_prompt : string :=
  String "010" "Insert the URL of the Wikipedia page you want to analyze: ".

Definition again_prompt : string :=
  "Do you want to analyze another URL? (y/n): ".

(** What [input()] raises when the input has ended. *)
Definition EOFError : Exn := PyException "EOF when reading a line".

(** Lines 167-171.  [stdin] holds the lines still to be read; [input(prompt)]
    prints the prompt and takes the next line, or raises at the end of the
    input.  [decision] starts as 'y', so the first turn always runs. *)
Fixpoint interactive_loop (w : Web) (stdin : list string) : M unit :=
  print (Print url_prompt) ;;;
  match stdin with
  | [] => raise EOFError
  | url :: rest =>
      analyze_page_content w url ;;;
      print (Print again_prompt) ;;;
      match rest with
      | [] => raise EOFError
      | decision :: rest' =>
          if String.eqb (lower decision) "y" then interactive_loop w rest'
          else ret tt
      end
  end.

(** Lines 156-173. *)
Definition main (w : Web) (stdin : list string) : M unit :=
  population_pipeline w ;;;
  interactive_loop w stdin ;;;
  print (Print "Program terminated.").

(** ** Vocabulary of the statements *)


Fixpoint all_chars (p : ascii -> bool) (s : string) : bool :=
  match s with
  | EmptyString => true
  | String c t => p c && all_chars p t
  end.

Fixpoint some_char (p : ascii -> bool) (s : string) : bool :=
  match s with
  | EmptyString => false
  | String c t => p c || some_char p t
  end.

(** A run of digits, with commas anywhere between them. *)
Definition separated_digits (s : string) : bool :=
  all_chars (fun c => is_digit c || Ascii.eqb c ",") s && some_char is_digit s.

(** The digits of a footnote marker: at least one. *)
Definition marker_digits (m : string) : bool :=
  all_chars is_digit m && negb (String.eqb m EmptyString).

(** The markers [[m1][m2]...] written one after the other. *)
Fixpoint footnotes (marks : list string) : string :=
  match marks with
  | [] => EmptyString
  | m :: t => (String "[" m ++ String "]" (footnotes t))%string
  end.

(** The number a run of digits denotes, by the weight of each position. *)
Fixpoint decimal_value (s : string) : Z :=
  match s with
  | EmptyString => 0%Z
  | String c t =>
      (digit_value c * 10 ^ Z.of_nat (String.length t) + decimal_value t)%Z
  end.

(** The digits of a run of separated digits. *)
Fixpoint digits_of (s : string) : string :=
  match s with
  | EmptyString => EmptyString
  | String c t => if is_digit c then String c (digits_of t) else digits_of t
  end.

(** The coercion reads a run of digits that denotes an integer below 2^53 as
    that integer, which int64 and float64 both hold exactly. *)
Definition reads_digits_exactly (w : Web) : Prop :=
  forall (column : list string) (s : string),
    all_chars is_digit s = true ->
    s <> EmptyString ->
    (decimal_value s < 2 ^ 53)%Z ->
    to_numeric w column s = Some (Finite (inject_Z (decimal_value s))).

(** The frame after lines 41-43. *)
Definition after_three (w : Web) (k : nat) (d : DataFrame) : DataFrame :=
  mkFrame (columns d)
    (map (fun r =>
            set_cell k
              (str_apply remove_footnotes
                 (str_apply remove_commas (astype_text w (cell_at k r)))) r)
       (rows d)).

(** The text of a value after lines 41-43, if it is a text by then. *)
Definition cleaned_text (w : Web) (c : Cell) : option string :=
  match astype_text w c with
  | CStr s => Some (remove_footnotes (remove_commas s))
  | _ => None
  end.

(** The texts of column [k] when line 44 is reached. *)
Definition column_texts (w : Web) (k : nat) (d : DataFrame) : list string :=
  flat_map (fun r =>
              if k <? List.length (cells r) then
                match cleaned_text w (cell_at k r) with
                | Some t => [t]
                | None => []
                end
              else []) (rows d).

(** The number line 44 stores for a row, if it stores one. *)
Definition value_of (w : Web) (k : nat) (d : DataFrame) (r : Row)
  : option Number :=
  if k <? List.length (cells r) then
    match cleaned_text w (cell_at k r) with
    | Some t => to_numeric w (column_texts w k d) t
    | None => None
    end
  else None.

(** A row parses when line 44 stores a number for it. *)
Definition parses (w : Web) (k : nat) (d : DataFrame) (r : Row) : bool :=
  match value_of w k d r with Some _ => true | None => false end.

(** The row with the outcome of line 44 in column [k]. *)
Definition cleaned_row (w : Web) (k : nat) (d : DataFrame) (r : Row) : Row :=
  set_cell k (match value_of w k d r with Some q => CNum q | None => CNaN end) r.

(** The order of the numbers: that of the finite ones, with the negative
    infinity below and the positive infinity above all of them. *)
Definition num_le (x y : Number) : Prop :=
  match x, y with
  | Finite a, Finite b => (a <= b)%Q
  | Infinite true, _ => True
  | _, Infinite false => True
  | _, _ => False
  end.

(** Descending order of the numbers in column [k]. *)
Definition desc (k : nat) (r1 r2 : Row) : Prop :=
  num_le (num_at k r2) (num_at k r1).

(** A list of numbers in descending order. *)
Definition descending (vs : list Number) : Prop :=
  StronglySorted (fun a b => num_le b a) vs.

(** [l1] is an initial part of [l2]. *)
Definition initial {A : Type} (l1 l2 : list A) : Prop :=
  exists rest, l2 = l1 ++ rest.

(** The frame has text labels, and exactly one of them is "Population", at
    position [k]. *)
Definition population_at (k : nat) (d : DataFrame) : bool :=
  match column_positions "Population" (columns d) with
  | [j] => j =? k
  | _ => false
  end.


(** Two numbers are equal. *)
Definition same (x y : Number) : bool :=
  match x, y with
  | Finite a, Finite b => Qeq_bool a b
  | Infinite m, Infinite n => Bool.eqb m n
  | _, _ => false
  end.

(** The rows whose cell in column [k] holds the number [v]. *)
Definition with_value (k : nat) (v : Number) (rs : list Row) : list Row :=
  filter (fun r => match cell_at k r with
                   | CNum x => same x v
                   | _ => false
                   end) rs.

(** The numbers in column [k] of rows that all hold one. *)
Definition values_at (k : nat) (rs : list Row) (vs : list Number) : Prop :=
  map (cell_at k) rs = map CNum vs.

(** Sample datasets: populations 5, 3, 9, 1; and a table with separators, a
    footnote marker, an unparseable value and a tie. *)
Definition four_rows : DataFrame :=
  mkFrame (StrIndex ["Country"; "Population"])
    [mkRow 0 [CStr "A"; CStr "5"]; mkRow 1 [CStr "B"; CStr "3"];
     mkRow 2 [CStr "C"; CStr "9"]; mkRow 3 [CStr "D"; CStr "1"]].

Definition mixed_rows : DataFrame :=
  mkFrame (StrIndex ["Country/Dependency"; "Population"; "Region"])
    [mkRow 0 [CStr "A"; CStr "1,234,567[3]"; CStr "Asia"];
     mkRow 1 [CStr "B"; CStr "N/A"; CStr "Asia"];
     mkRow 2 [CStr "C"; CStr "70"; CStr "Africa"];
     mkRow 3 [CStr "D"; CNum 70; CStr "Europe"];
     mkRow 4 [CStr "E"; CNaN; CStr "Europe"]].

(** Twelve rows: populations 100, 99, ..., 92, then three rows of 50. *)
Definition tied_rows : DataFrame :=
  mkFrame (StrIndex ["Country"; "Population"])
    (map (fun i => mkRow i [CStr "X";
                            CNum (Finite
                                    (inject_Z
                                       (if i <? 9 then 100 - Z.of_nat i
                                        else 50)))])
       (seq 0 12)).

(** A table with a header row and no population column. *)
Definition capitals_table : DataFrame :=
  mkFrame (StrIndex ["Country"; "Capital"])
    [mkRow 0 [CStr "France"; CStr "Paris"]].

(** A table whose labels carry surrounding whitespace. *)
Definition padded_table : DataFrame :=
  mkFrame (StrIndex [" Country "; "Population "])
    [mkRow 0 [CStr "A"; CStr "5"]].

(** The line the scraper prints for an exception of its body. *)
Definition scrape_report (e : Exn) : Event :=
  match e with
  | RequestException msg => Print ("Error accessing the URL: " ++ msg)
  | PyException msg => Print ("Error scraping tables: " ++ msg)
  end.

(** The status of a response is not an error status. *)
Definition ok_status (r : Response) : bool :=
  negb ((400 <=? status_code r) && (status_code r <? 600))%Z.

(** The nearest float64 of an integer (ties to the even mantissa). *)
Definition float64 (z : Z) : Z :=
  let a := Z.abs z in
  if (a <? 2 ^ 53)%Z then z
  else
    let m := (2 ^ (Z.log2 a - 52))%Z in
    let q := (a / m)%Z in
    let r := (a mod m)%Z in
    let q' :=
      if (2 * r <? m)%Z then q
      else if (m <? 2 * r)%Z then (q + 1)%Z
      else if Z.even q then q else (q + 1)%Z in
    (Z.sgn z * (q' * m))%Z.

(** The coercion of the sample worlds, on series of integer literals, of
    "inf" and "-inf", and of texts without digits: an integer literal is read
    as its value, held as int64 when every text of the series is one and as
    float64 otherwise; "inf" and "-inf" are read as the infinities; another
    text gives a missing value. *)
Definition read_integers (column : list string) (s : string) : option Number :=
  match integer_literal s with
  | Some z =>
      if forallb (fun t => match integer_literal t with
                           | Some _ => true
                           | None => false
                           end) column
      then Some (Finite (inject_Z z))
      else Some (Finite (inject_Z (float64 z)))
  | None =>
      if String.eqb s "inf" then Some (Infinite false)
      else if String.eqb s "-inf" then Some (Infinite true)
      else None
  end.

(** [astype(str)] of the sample worlds: an integer is written in decimal, an
    infinity as "inf" or "-inf", a missing value as "nan". *)
Definition write_integers (c : Cell) : Cell :=
  match c with
  | CNum (Finite q) => CStr (str_of_Z (Qnum q))
  | CNum (Infinite false) => CStr "inf"
  | CNum (Infinite true) => CStr "-inf"
  | _ => CStr "nan"
  end.

(** The dtype of the sample worlds: a column is [object] when it holds a
    text. *)
Definition object_if_text (d : DataFrame) (j : nat) : bool :=
  existsb (fun c => match c with CStr _ => true | _ => false end)
    (get_column j d).

(** A world with the pandas and plotting behaviour of the samples: no
    plotting or file call fails, the script lies in [/home/user/tool]. *)
Definition sample_web (get : string -> Exn + Response)
  (read : string -> Exn + list DataFrame) (soup : string -> Exn + Node)
  (dtype : DataFrame -> nat -> bool) : Web :=
  mkWeb get read soup write_integers read_integers dtype
    None (fun _ _ => None) "/home/user/tool" (fun _ => None) (fun _ => None)
    None.

(** A world in which every request succeeds, [pd.read_html] finds [tables]
    (it raises when there is none), the page parses to [soup], and plotting
    succeeds. *)
Definition world (tables : list DataFrame) (soup : Node) : Web :=
  sample_web (fun _ => inr (mkResponse 200 "<html>"))
    (fun _ => match tables with
              | [] => inl (PyException "No tables found")
              | _ => inr tables
              end)
    (fun _ => inr soup)
    object_if_text.

(** A world without network. *)
Definition offline : Web :=
  sample_web (fun _ => inl (RequestException "ConnectionError"))
    (fun _ => inr [])
    (fun _ => inr (Element "[document]" [] []))
    object_if_text.

(** A table without header row: [pd.read_html] labels its columns 0, 1. *)
Definition unlabelled_table : DataFrame :=
  mkFrame (IntIndex [0; 1]%Z) [mkRow 0 [CStr "Capital"; CStr "Paris"]].

(** A page without headings and without the content container. *)
Definition bare_page : Node :=
  Element "[document]" []
    [Element "html" []
       [Element "body" []
          [Element "p" [] [NavigableString "Hello world"]]]].

(** A content container with two paragraphs. *)
Definition plain_container : Node :=
  Element "div" [("id", AStr "mw-content-text")]
    [Element "p" []
       [NavigableString "Hello ";
        Element "a" [("href", AStr "/wiki/World")] [NavigableString "world"]];
     Element "p" [] [Element "img" [] []]].

(** A page without headings, with the content container. *)
Definition plain_page : Node :=
  Element "[document]" []
    [Element "html" [] [Element "body" [] [plain_container]]].

(** A page with two headings; only the first is followed by a block. *)
Definition two_sections : Node :=
  Element "[document]" []
    [Element "html" []
       [Element "head" [] [];
        Element "body" []
          [Element "h2" []
             [Element "span" [("class", AList ["mw-headline"])]
                [NavigableString "History"]];
           Element "div" []
             [Element "p" [] [NavigableString "Once upon a time"]];
           Element "h2" []
             [Element "span" [("class", AList ["mw-headline"])]
                [NavigableString "Notes"]];
           Element "p" [] [NavigableString "none"]]]].





(** The ranked subset of the sample [mixed_rows]. *)
Definition ranked_sample : DataFrame :=
  Eval vm_compute in
    match returned (clean_and_analyze_population_data (world [] bare_page)
                      (PyFrame mixed_rows)) with
    | Some top => top
    | None => empty_frame
    end.





(** A column in which one value is written "inf". *)
Definition unbounded_rows : DataFrame :=
  mkFrame (StrIndex ["Country"; "Population"])
    [mkRow 0 [CStr "A"; CStr "5"]; mkRow 1 [CStr "B"; CStr "inf"];
     mkRow 2 [CStr "C"; CStr "7"]].

(** A column in which a very large integer stands beside a text that is no
    number. *)
Definition large_rows : DataFrame :=
  mkFrame (StrIndex ["Country"; "Population"])
    [mkRow 0 [CStr "A"; CStr "9007199254740993[1]"];
     mkRow 1 [CStr "B"; CStr "N/A"]].


(** The table has text labels. *)
Definition text_labelled (t : DataFrame) : bool :=
  match columns t with StrIndex _ => true | IntIndex _ => false end.

(** The table with its labels stripped. *)
Definition stripped (t : DataFrame) : DataFrame :=
  match columns t with
  | StrIndex names => mkFrame (StrIndex (map strip names)) (rows t)
  | IntIndex _ => t
  end.

(** One of the stripped labels of the table is "Population". *)
Definition population_table (t : DataFrame) : bool :=
  has_column "Population" (columns (stripped t)).

(** The events of a log that report a section. *)
Definition sections (out : list Event) : list Event :=
  filter (fun e => match e with PrintSection _ _ _ _ _ => true | _ => false end)
    out.

(** A value written as runs of digits and commas with footnote markers
    between them or after them. *)
Inductive Piece : Type :=
| Digits (s : string)
| Marker (m : string).

Fixpoint written (ps : list Piece) : string :=
  match ps with
  | [] => EmptyString
  | Digits s :: t => (s ++ written t)%string
  | Marker m :: t => (String "[" m ++ String "]" (written t))%string
  end.

(** A run holds digits and commas; a marker holds digits and commas, and at
    least one digit. *)
Definition piece_ok (p : Piece) : bool :=
  match p with
  | Digits s => all_chars (fun c => is_digit c || Ascii.eqb c ",") s
  | Marker m => separated_digits m
  end.

(** The digits outside the markers. *)
Fixpoint plain_digits (ps : list Piece) : string :=
  match ps with
  | [] => EmptyString
  | Digits s :: t => (digits_of s ++ plain_digits t)%string
  | Marker _ :: t => plain_digits t
  end.

(** A table in which no value of "Population" is a number. *)
Definition unparseable_rows : DataFrame :=
  mkFrame (StrIndex ["Country"; "Population"])
    [mkRow 0 [CStr "A"; CStr "N/A"]; mkRow 1 [CStr "B"; CStr "unknown"];
     mkRow 2 [CStr "C"; CNaN]].

(** A world in which the server answers every request with status 404. *)
Definition not_found : Web :=
  sample_web (fun _ => inr (mkResponse 404 "Not Found"))
    (fun _ => inr [mixed_rows])
    (fun _ => inr plain_page)
    object_if_text.

(** What one turn of the interactive loop prints: the first prompt, the log
    of the analyzer, the second prompt. *)
Definition turn_log (w : Web) (url : string) : list Event :=
  Print url_prompt :: fst (analyze_page_content w url) ++ [Print again_prompt].

(** * Properties *)

(** ** Cleaning one value *)

Section Text.

Lemma append_assoc (a b c : string) :
  ((a ++ b) ++ c)%string = (a ++ (b ++ c))%string.
Proof. induction a as [|x a IH]; simpl; [reflexivity | now rewrite IH]. Qed.

Lemma length_app (a b : string) :
  String.length (a ++ b) = String.length a + String.length b.
Proof. induction a as [|x a IH]; simpl; [reflexivity | now rewrite IH]. Qed.

Lemma digit_not_space c : is_digit c = true -> is_space c = false.
Proof.
  unfold is_digit, is_space; intros H.
  apply andb_true_iff in H as [H1 H2].
  apply Nat.leb_le in H1; apply Nat.leb_le in H2.
  apply orb_false_iff; split; apply andb_false_iff.
  - right; apply Nat.leb_gt; lia.
  - right; apply Nat.leb_gt; lia.
Qed.

Lemma digit_not_char c (x : ascii) :
  is_digit c = true -> is_digit x = false -> Ascii.eqb c x = false.
Proof.
  intros Hc Hx. destruct (Ascii.eqb c x) eqn:E; [|reflexivity].
  apply Ascii.eqb_eq in E; subst; congruence.
Qed.

Lemma remove_commas_app a b :
  remove_commas (a ++ b) = (remove_commas a ++ remove_commas b)%string.
Proof.
  induction a as [|c a IH]; simpl; [reflexivity|].
  destruct (Ascii.eqb c ","); simpl; now rewrite IH.
Qed.

Lemma remove_commas_digits s :
  all_chars is_digit s = true -> remove_commas s = s.
Proof.
  induction s as [|c s IH]; simpl; [reflexivity|]; intros H.
  apply andb_true_iff in H as [Hc Hs].
  rewrite (digit_not_char c "," Hc eq_refl). now rewrite IH.
Qed.

Lemma remove_commas_footnotes marks :
  forallb marker_digits marks = true ->
  remove_commas (footnotes marks) = footnotes marks.
Proof.
  induction marks as [|m t IH]; simpl; [reflexivity|]; intros H.
  apply andb_true_iff in H as [Hm Ht].
  apply andb_true_iff in Hm as [Hm _].
  rewrite remove_commas_app; simpl.
  now rewrite remove_commas_digits, IH.
Qed.

Lemma remove_commas_separated s :
  all_chars (fun c => is_digit c || Ascii.eqb c ",") s = true ->
  remove_commas s = digits_of s.
Proof.
  induction s as [|c s IH]; simpl; [reflexivity|]; intros H.
  apply andb_true_iff in H as [Hc Hs].
  destruct (is_digit c) eqn:Hd.
  - rewrite (digit_not_char c "," Hd eq_refl). now rewrite IH.
  - simpl in Hc. rewrite Hc. now apply IH.
Qed.

Lemma digits_of_digits s : all_chars is_digit (digits_of s) = true.
Proof.
  induction s as [|c s IH]; simpl; [reflexivity|].
  destruct (is_digit c) eqn:Hd; simpl; [now rewrite Hd|exact IH].
Qed.

Lemma digits_of_nonempty s :
  some_char is_digit s = true -> digits_of s <> EmptyString.
Proof.
  induction s as [|c s IH]; simpl; [discriminate|].
  destruct (is_digit c); [discriminate|exact IH].
Qed.

Lemma skip_digits_marker m rest :
  all_chars is_digit m = true ->
  skip_digits (m ++ String "]" rest) = (String.length m, String "]" rest).
Proof.
  induction m as [|c m IH]; simpl; [reflexivity|]; intros H.
  apply andb_true_iff in H as [Hc Hm].
  now rewrite Hc, IH.
Qed.

Lemma sub_markers_skip u v :
  sub_markers (String.length u) (u ++ v) = sub_markers 0 v.
Proof. induction u as [|c u IH]; simpl; [reflexivity|exact IH]. Qed.

Lemma sub_markers_marker m rest :
  marker_digits m = true ->
  sub_markers 0 (String "[" m ++ String "]" rest) = sub_markers 0 rest.
Proof.
  unfold marker_digits; intros H.
  apply andb_true_iff in H as [Hd Hne].
  assert (L : String.length m <> 0) by (destruct m; [discriminate|simpl; lia]).
  change (String "[" m ++ String "]" rest)%string
    with (String "[" (m ++ String "]" rest)).
  cbn [sub_markers marker_length].
  rewrite (skip_digits_marker m rest Hd).
  change (Ascii.eqb "[" "[") with true. cbv iota.
  destruct (String.length m) as [|n] eqn:E; [congruence|].
  change (Ascii.eqb "]" "]") with true. cbv iota.
  replace (S n + 2 - 1) with (String.length (m ++ "]"))
    by (rewrite length_app, E; simpl; lia).
  rewrite <- (sub_markers_skip (m ++ "]") rest).
  now rewrite append_assoc.
Qed.

Lemma sub_markers_footnotes marks :
  forallb marker_digits marks = true ->
  sub_markers 0 (footnotes marks) = EmptyString.
Proof.
  induction marks as [|m t IH]; [reflexivity|]; intros H.
  cbn [forallb] in H. apply andb_true_iff in H as [Hm Ht].
  cbn [footnotes]. rewrite sub_markers_marker by exact Hm. now apply IH.
Qed.

Lemma sub_markers_digits ds rest :
  all_chars is_digit ds = true ->
  sub_markers 0 (ds ++ rest) = (ds ++ sub_markers 0 rest)%string.
Proof.
  induction ds as [|c ds IH]; [reflexivity|]; intros H.
  simpl in H. apply andb_true_iff in H as [Hc Hd].
  cbn [append sub_markers marker_length].
  rewrite (digit_not_char c "[" Hc eq_refl). now rewrite IH.
Qed.

Lemma strip_digits s : all_chars is_digit s = true -> strip s = s.
Proof.
  intros H. unfold strip.
  assert (L : lstrip s = s).
  { destruct s as [|c s]; [reflexivity|]. simpl in *.
    apply andb_true_iff in H as [Hc _]. now rewrite (digit_not_space c Hc). }
  rewrite L. clear L.
  induction s as [|c s IH]; [reflexivity|].
  simpl in *. apply andb_true_iff in H as [Hc Hs].
  rewrite (IH Hs). rewrite (digit_not_space c Hc). now destruct s.
Qed.

Lemma parse_digits_from_value s : forall acc,
  all_chars is_digit s = true ->
  parse_digits_from acc s
  = Some (acc * 10 ^ Z.of_nat (String.length s) + decimal_value s)%Z.
Proof.
  induction s as [|c s IH]; intros acc H.
  - simpl. f_equal. lia.
  - simpl in H. apply andb_true_iff in H as [Hc Hs].
    cbn [parse_digits_from decimal_value String.length]. rewrite Hc, IH by exact Hs.
    f_equal. rewrite Nat2Z.inj_succ, Z.pow_succ_r by lia. ring.
Qed.

Lemma integer_literal_digits s :
  all_chars is_digit s = true -> s <> EmptyString ->
  integer_literal s = Some (decimal_value s).
Proof.
  intros H Hne. unfold integer_literal. rewrite (strip_digits s H).
  destruct s as [|c s]; [congruence|].
  pose proof H as H'. simpl in H'. apply andb_true_iff in H' as [Hc _].
  rewrite (digit_not_char c "-" Hc eq_refl), (digit_not_char c "+" Hc eq_refl).
  unfold parse_digits. rewrite parse_digits_from_value by exact H.
  f_equal.
Qed.

End Text.

(** ** Frames: the effect of the cleaning steps, row by row *)

Section Frames.

Variable k : nat.

Lemma update_short {A} (x : A) l : forall n, List.length l <= n -> update n x l = l.
Proof.
  induction l as [|y l IH]; intros n H; [now destruct n|].
  destruct n as [|n]; simpl in *; [lia|]. rewrite IH by lia. reflexivity.
Qed.

Lemma nth_update {A} (x d : A) l : forall n,
  n < List.length l -> nth n (update n x l) d = x.
Proof.
  induction l as [|y l IH]; intros n H; simpl in H; [lia|].
  destruct n as [|n]; simpl; [reflexivity|]. apply IH; lia.
Qed.

Lemma nth_update_other {A} (x d : A) l : forall n j,
  j <> n -> nth j (update n x l) d = nth j l d.
Proof.
  induction l as [|y l IH]; intros n j H; [now destruct n|].
  destruct n as [|n], j as [|j]; simpl; try reflexivity; try congruence.
  apply IH; congruence.
Qed.

Lemma update_update {A} (x y : A) l : forall n,
  update n y (update n x l) = update n y l.
Proof.
  induction l as [|z l IH]; intros n; [now destruct n|].
  destruct n as [|n]; simpl; [reflexivity|]. now rewrite IH.
Qed.

Lemma length_update {A} (x : A) l : forall n,
  List.length (update n x l) = List.length l.
Proof.
  induction l as [|z l IH]; intros n; [now destruct n|].
  destruct n as [|n]; simpl; [reflexivity|]. now rewrite IH.
Qed.

Lemma cell_at_short r : List.length (cells r) <= k -> cell_at k r = CNaN.
Proof. intros H. unfold cell_at. now apply nth_overflow. Qed.

Lemma set_cell_short c r : List.length (cells r) <= k -> set_cell k c r = r.
Proof.
  intros H. unfold set_cell. rewrite update_short by exact H. now destruct r.
Qed.

Lemma cell_at_set_cell c r :
  k < List.length (cells r) -> cell_at k (set_cell k c r) = c.
Proof. intros H. unfold cell_at, set_cell; simpl. now apply nth_update. Qed.

Lemma cell_at_set_cell_other c r j :
  j <> k -> cell_at j (set_cell k c r) = cell_at j r.
Proof. intros H. unfold cell_at, set_cell; simpl. now apply nth_update_other. Qed.

(** Assigning twice to the same cell: the second value is computed from the
    first. *)
Lemma set_cell_again (g : Cell -> Cell) c r :
  set_cell k (g (cell_at k (set_cell k c r))) (set_cell k c r)
  = set_cell k (g c) r.
Proof.
  destruct (Nat.lt_ge_cases k (List.length (cells r))) as [H|H].
  - rewrite cell_at_set_cell by exact H.
    unfold set_cell; simpl. now rewrite update_update.
  - rewrite (set_cell_short c r H). now rewrite !set_cell_short by exact H.
Qed.

Lemma assign_rows_map (g : Row -> Cell) rs :
  assign_rows k (map g rs) rs = map (fun r => set_cell k (g r) r) rs.
Proof. induction rs as [|r rs IH]; simpl; [reflexivity | now rewrite IH]. Qed.

Lemma set_column_map (f : Cell -> Cell) df :
  set_column k (map f (get_column k df)) df
  = mkFrame (columns df) (map (fun r => set_cell k (f (cell_at k r)) r) (rows df)).
Proof.
  unfold set_column, get_column. rewrite map_map. now rewrite assign_rows_map.
Qed.

Lemma filter_map_comm {A B} (f : A -> B) (p : B -> bool) l :
  filter p (map f l) = map f (filter (fun x => p (f x)) l).
Proof.
  induction l as [|x l IH]; simpl; [reflexivity|].
  destruct (p (f x)); simpl; now rewrite IH.
Qed.

Variable w : Web.

(** Lines 41-43 on one value. *)
Lemma three_steps c :
  str_apply remove_footnotes (str_apply remove_commas (astype_text w c))
  = match cleaned_text w c with Some t => CStr t | None => CNaN end.
Proof. unfold cleaned_text. now destruct (astype_text w c). Qed.

Lemma texts_column d (f : Cell -> Cell) :
  (forall c, f c = match cleaned_text w c with
                   | Some t => CStr t
                   | None => CNaN
                   end) ->
  texts (map (cell_at k)
           (map (fun r => set_cell k (f (cell_at k r)) r) (rows d)))
  = column_texts w k d.
Proof.
  intros F. unfold texts, column_texts.
  induction (rows d) as [|r l IH]; [reflexivity|].
  cbn [map flat_map]. rewrite IH. f_equal.
  destruct (Nat.ltb_spec k (List.length (cells r))) as [H|H].
  - rewrite cell_at_set_cell by exact H. rewrite F.
    now destruct (cleaned_text w (cell_at k r)).
  - rewrite set_cell_short by exact H. now rewrite (cell_at_short r H).
Qed.

Lemma coerced_row d r :
  set_cell k
    (to_numeric_value w (column_texts w k d)
       match cleaned_text w (cell_at k r) with
       | Some t => CStr t
       | None => CNaN
       end) r
  = cleaned_row w k d r.
Proof.
  unfold cleaned_row, value_of, to_numeric_value.
  destruct (Nat.ltb_spec k (List.length (cells r))) as [H|H].
  - now destruct (cleaned_text w (cell_at k r)).
  - now rewrite !set_cell_short by exact H.
Qed.

Lemma isna_cleaned_row d r :
  negb (isna (cell_at k (cleaned_row w k d r))) = parses w k d r.
Proof.
  unfold cleaned_row, parses, value_of.
  destruct (Nat.ltb_spec k (List.length (cells r))) as [H|H].
  - rewrite cell_at_set_cell by exact H.
    destruct (cleaned_text w (cell_at k r)) as [t|]; [|reflexivity].
    now destruct (to_numeric w (column_texts w k d) t).
  - rewrite set_cell_short by exact H. now rewrite (cell_at_short r H).
Qed.

Lemma three_steps_frame d :
  set_column k (map (str_apply remove_footnotes)
    (get_column k
       (set_column k (map (str_apply remove_commas)
          (get_column k
             (set_column k (map (astype_text w) (get_column k d)) d)))
          (set_column k (map (astype_text w) (get_column k d)) d))))
    (set_column k (map (str_apply remove_commas)
       (get_column k (set_column k (map (astype_text w) (get_column k d)) d)))
       (set_column k (map (astype_text w) (get_column k d)) d))
  = after_three w k d.
Proof.
  rewrite !set_column_map. cbn [columns rows]. rewrite !map_map.
  unfold after_three. f_equal. apply map_ext. intros r.
  rewrite (set_cell_again (str_apply remove_commas)).
  now rewrite (set_cell_again (str_apply remove_footnotes)).
Qed.

Lemma step_four d :
  set_column k (to_numeric_series w (get_column k (after_three w k d)))
    (after_three w k d)
  = mkFrame (columns d) (map (cleaned_row w k d) (rows d)).
Proof.
  unfold to_numeric_series.
  assert (T : texts (get_column k (after_three w k d)) = column_texts w k d).
  { unfold get_column, after_three. cbn [rows].
    apply (texts_column d (fun c =>
             str_apply remove_footnotes
               (str_apply remove_commas (astype_text w c)))).
    apply three_steps. }
  rewrite T, set_column_map. unfold after_three. cbn [columns rows].
  rewrite map_map. f_equal. apply map_ext. intros r.
  rewrite (set_cell_again (to_numeric_value w (column_texts w k d))).
  rewrite three_steps. apply coerced_row.
Qed.

(** Lines 41-45 keep the rows for which line 44 stores a number, in their
    order, each with that number in the column. *)
Lemma clean_population_rows d :
  clean_population w k d
  = mkFrame (columns d)
      (map (cleaned_row w k d) (filter (parses w k d) (rows d))).
Proof.
  unfold clean_population. cbv zeta. rewrite three_steps_frame, step_four.
  unfold dropna. cbn [columns rows]. f_equal.
  rewrite filter_map_comm. f_equal. apply filter_ext. intros r.
  apply isna_cleaned_row.
Qed.

End Frames.

(** ** Ranking *)

Section Ranking.

Variable k : nat.

Lemma num_le_bool_iff x y : num_le_bool x y = true <-> num_le x y.
Proof.
  destruct x as [a|[]], y as [b|[]]; cbn;
    try apply Qle_bool_iff; intuition discriminate.
Qed.

Lemma num_le_trans x y z : num_le x y -> num_le y z -> num_le x z.
Proof.
  destruct x as [a|[]], y as [b|[]], z as [c|[]]; cbn; try tauto.
  apply Qle_trans.
Qed.

Lemma num_le_total x y : num_le_bool y x = false -> num_le x y.
Proof.
  destruct x as [a|[]], y as [b|[]]; cbn; try discriminate; try tauto.
  intros H. apply Qlt_le_weak, Qnot_le_lt. intros G.
  apply Qle_bool_iff in G. congruence.
Qed.

Lemma same_le x y v :
  same x v = true -> same y v = true -> num_le_bool y x = true.
Proof.
  destruct x as [a|m], y as [b|n], v as [c|o]; cbn; try discriminate.
  - intros Ex Ey. apply Qeq_bool_iff in Ex, Ey. apply Qle_bool_iff.
    rewrite Ex, Ey. apply Qle_refl.
  - intros Ex Ey. apply Bool.eqb_prop in Ex, Ey. subst. now destruct o.
Qed.

Lemma insert_desc_perm x l : Permutation (insert_desc k x l) (x :: l).
Proof.
  induction l as [|y l IH]; simpl; [reflexivity|].
  destruct (num_le_bool (num_at k y) (num_at k x)); [reflexivity|].
  rewrite IH. apply perm_swap.
Qed.

Lemma sort_desc_perm l : Permutation (sort_desc k l) l.
Proof.
  induction l as [|x l IH]; simpl; [constructor|].
  rewrite insert_desc_perm. now constructor.
Qed.

Lemma insert_desc_sorted x l :
  StronglySorted (desc k) l -> StronglySorted (desc k) (insert_desc k x l).
Proof.
  induction l as [|y l IH]; intros S; simpl.
  - repeat constructor.
  - inversion S as [|? ? S' F]; subst.
    destruct (num_le_bool (num_at k y) (num_at k x)) eqn:E.
    + apply num_le_bool_iff in E. constructor; [exact S|].
      constructor; [exact E|].
      eapply Forall_impl; [|exact F]. unfold desc. intros a Ha.
      now apply (num_le_trans _ (num_at k y)).
    + assert (L : num_le (num_at k x) (num_at k y))
        by now apply num_le_total.
      constructor; [now apply IH|].
      eapply Permutation_Forall; [symmetry; apply insert_desc_perm|].
      constructor; [exact L | exact F].
Qed.

Lemma sort_desc_sorted l : StronglySorted (desc k) (sort_desc k l).
Proof.
  induction l as [|x l IH]; simpl; [constructor|].
  now apply insert_desc_sorted.
Qed.

(** The sort is stable: rows with the same number keep their order. *)
Lemma insert_desc_with_value v x l :
  with_value k v (insert_desc k x l) = with_value k v (x :: l).
Proof.
  induction l as [|y l IH]; [reflexivity|].
  cbn [insert_desc].
  destruct (num_le_bool (num_at k y) (num_at k x)) eqn:E; [reflexivity|].
  unfold with_value in *. cbn [filter] in *. rewrite IH.
  unfold num_at in E.
  destruct (cell_at k x) as [|qx|]; try reflexivity.
  destruct (cell_at k y) as [|qy|]; try reflexivity.
  destruct (same qx v) eqn:Ex, (same qy v) eqn:Ey; try reflexivity.
  exfalso. pose proof (same_le qx qy v Ex Ey). congruence.
Qed.

Lemma sort_desc_with_value v l :
  with_value k v (sort_desc k l) = with_value k v l.
Proof.
  induction l as [|x l IH]; [reflexivity|].
  cbn [sort_desc]. rewrite insert_desc_with_value.
  unfold with_value in *. cbn [filter]. now rewrite IH.
Qed.

Lemma sorted_app_inv (l1 l2 : list Row) :
  StronglySorted (desc k) (l1 ++ l2) ->
  StronglySorted (desc k) l1
  /\ Forall (fun r => Forall (fun t => desc k t r) l1) l2.
Proof.
  induction l1 as [|x l1 IH]; simpl; intros S.
  - split; [constructor|]. apply Forall_forall. intros; constructor.
  - inversion S as [|? ? S' F]; subst.
    destruct (IH S') as [S1 F1]. apply Forall_app in F as [Fa Fb].
    split; [now constructor|].
    apply Forall_forall. intros r Hr. constructor.
    + rewrite Forall_forall in Fb. now apply Fb.
    + rewrite Forall_forall in F1. now apply F1.
Qed.

Lemma in_firstn {A} (x : A) l : forall n, In x (firstn n l) -> In x l.
Proof.
  induction l as [|y l IH]; intros [|n] H; simpl in *; try contradiction.
  destruct H as [H|H]; [now left | right; now apply (IH n)].
Qed.

Lemma filter_all {A} (p : A -> bool) l :
  Forall (fun x => p x = true) l -> filter p l = l.
Proof.
  induction 1 as [|x l Hx _ IH]; simpl; [reflexivity|]. now rewrite Hx, IH.
Qed.

Lemma filter_twice {A} (p : A -> bool) l : filter p (filter p l) = filter p l.
Proof.
  apply filter_all. apply Forall_forall. intros x Hx.
  now apply filter_In in Hx.
Qed.

(** Rows that all hold a number, in descending order: their numbers. *)
Lemma sorted_values l :
  Forall (fun r => exists q, cell_at k r = CNum q) l ->
  StronglySorted (desc k) l ->
  values_at k l (map (num_at k) l) /\ descending (map (num_at k) l).
Proof.
  unfold values_at, descending.
  induction 1 as [|r l [q Hq] _ IH]; intros S; [split; constructor|].
  inversion S as [|? ? S' F]; subst. destruct (IH S') as [V D].
  cbn [map]. split.
  - rewrite V. f_equal. unfold num_at. now rewrite Hq.
  - constructor; [exact D|]. apply Forall_map. exact F.
Qed.

Variables (w : Web) (d : DataFrame).

(** The rows of a cleaned frame hold no missing value in the column. *)
Lemma cleaned_not_missing l :
  filter (fun r => negb (isna (cell_at k r)))
    (map (cleaned_row w k d) (filter (parses w k d) l))
  = map (cleaned_row w k d) (filter (parses w k d) l).
Proof.
  rewrite filter_map_comm. f_equal.
  rewrite (filter_ext _ (parses w k d)).
  - apply filter_twice.
  - intros r. apply isna_cleaned_row.
Qed.

Lemma parses_cell r :
  parses w k d r = true ->
  exists q, value_of w k d r = Some q
            /\ cell_at k (cleaned_row w k d r) = CNum q
            /\ k < List.length (cells r).
Proof.
  unfold parses, cleaned_row. intros H.
  destruct (value_of w k d r) as [q|] eqn:V; [|discriminate].
  exists q. split; [reflexivity|].
  unfold value_of in V.
  destruct (Nat.ltb_spec k (List.length (cells r))) as [L|L]; [|discriminate].
  split; [now apply cell_at_set_cell | exact L].
Qed.

Lemma cleaned_numeric l :
  Forall (fun r => exists q, cell_at k r = CNum q)
    (map (cleaned_row w k d) (filter (parses w k d) l)).
Proof.
  apply Forall_forall. intros r' H. apply in_map_iff in H as (r & <- & H).
  apply filter_In in H as [_ P].
  destruct (parses_cell r P) as (q & _ & C & _). now exists q.
Qed.


End Ranking.

(** ** The cleaner *)

Section Cleaner.

Variables (w : Web) (d : DataFrame) (k : nat).
Hypothesis Hpop : population_at k d = true.

Lemma positions_existsb name names : forall i,
  positions_from i name names <> [] ->
  existsb (String.eqb name) names = true.
Proof.
  induction names as [|n t IH]; intros i H; [now elim H|].
  cbn in *. destruct (String.eqb name n); [reflexivity|]. now apply (IH (S i)).
Qed.

Lemma population_positions :
  column_positions "Population" (columns d) = [k].
Proof.
  unfold population_at in Hpop.
  destruct (column_positions "Population" (columns d)) as [|j [|? ?]];
    try discriminate.
  apply Nat.eqb_eq in Hpop. now subst.
Qed.

(** With one "Population" column, the call takes the path of lines 41-53. *)
Lemma cleaner_runs :
  clean_and_analyze_population_data w (PyFrame d)
  = mkCleaned (Some (nlargest 10 k (clean_population w k d)))
      (PyFrame (clean_population w k d))
      [Print "Data successfully cleaned and converted to numeric.";
       PrintAverage (mean (numbers k (clean_population w k d)))].
Proof.
  pose proof population_positions as P.
  unfold clean_and_analyze_population_data, clean_body. rewrite P.
  assert (H : has_column "Population" (columns d) = true).
  { unfold column_positions in P. destruct (columns d) as [names|];
      [|discriminate]. apply (positions_existsb _ _ 0). now rewrite P. }
  rewrite H. reflexivity.
Qed.

Lemma nlargest_cleaned n :
  rows (nlargest n k (clean_population w k d))
  = firstn n (sort_desc k (map (cleaned_row w k d)
                             (filter (parses w k d) (rows d)))).
Proof.
  rewrite clean_population_rows. unfold nlargest. cbn [rows].
  now rewrite cleaned_not_missing.
Qed.

End Cleaner.

Lemma left_out_smaller k (top rest : list Row) :
  Forall (fun r => exists q, cell_at k r = CNum q) rest ->
  Forall (fun r => Forall (fun t => desc k t r) top) rest ->
  Forall (fun r => exists q, cell_at k r = CNum q
                             /\ Forall (fun v => num_le q v) (map (num_at k) top))
    rest.
Proof.
  intros N F. rewrite Forall_forall in *. intros r Hr.
  destruct (N r Hr) as [q Hq]. exists q. split; [exact Hq|].
  apply Forall_map. eapply Forall_impl; [|exact (F r Hr)].
  unfold desc, num_at. intros t. now rewrite Hq.
Qed.

(** C1. For a dataset with one "Population" column, the cleaner returns a
    frame of min(10, number of rows that parse) rows whose populations are
    numbers in descending order, made of the largest cleaned rows: together
    with the rows left out it is a rearrangement of the cleaned rows, and no
    row left out holds a larger number than a row returned.  Populations 5, 3,
    9, 1 are returned as 9, 5, 3, 1. *)
Theorem ranked_subset_size_and_order (w : Web) (d : DataFrame) (k : nat) :
  population_at k d = true ->
  (exists top vs,
     returned (clean_and_analyze_population_data w (PyFrame d)) = Some top
     /\ columns top = columns d
     /\ List.length (rows top)
        = Nat.min 10 (List.length (filter (parses w k d) (rows d)))
     /\ values_at k (rows top) vs
     /\ descending vs
     /\ exists rest,
          Permutation (rows top ++ rest)
            (map (cleaned_row w k d) (filter (parses w k d) (rows d)))
          /\ Forall (fun r => exists q, cell_at k r = CNum q
                                        /\ Forall (fun v => num_le q v) vs)
               rest)
  /\ option_map (fun top => map (cell_at 1) (rows top))
       (returned (clean_and_analyze_population_data (world [] bare_page)
                    (PyFrame four_rows)))
     = Some [CNum 9; CNum 5; CNum 3; CNum 1].
Proof.
  intros H. split; [|reflexivity].
  rewrite (cleaner_runs w d k H). cbn [returned].
  set (l := map (cleaned_row w k d) (filter (parses w k d) (rows d))).
  pose proof (sort_desc_sorted k l) as S.
  pose proof (sort_desc_perm k l) as P.
  assert (N : Forall (fun r => exists q, cell_at k r = CNum q) (sort_desc k l)).
  { apply (Permutation_Forall (Permutation_sym P)). apply cleaned_numeric. }
  rewrite <- (firstn_skipn 10 (sort_desc k l)) in S, N.
  apply sorted_app_inv in S as [S1 S2]. apply Forall_app in N as [N1 N2].
  destruct (sorted_values k _ N1 S1) as [V D].
  exists (nlargest 10 k (clean_population w k d)),
    (map (num_at k) (firstn 10 (sort_desc k l))).
  rewrite nlargest_cleaned. fold l.
  split; [reflexivity|]. split; [now rewrite clean_population_rows|].
  split; [|split; [exact V|split; [exact D|]]].
  - rewrite length_firstn, (Permutation_length P). unfold l.
    now rewrite length_map.
  - exists (skipn 10 (sort_desc k l)). split.
    + rewrite firstn_skipn. exact P.
    + now apply left_out_smaller.
Qed.

Lemma ranked_subset_witness :
  population_at 1 tied_rows = true
  /\ exists top vs,
       returned (clean_and_analyze_population_data (world [] bare_page)
                   (PyFrame tied_rows)) = Some top
       /\ columns top = columns tied_rows
       /\ List.length (rows top)
          = Nat.min 10
              (List.length (filter (parses (world [] bare_page) 1 tied_rows)
                              (rows tied_rows)))
       /\ values_at 1 (rows top) vs
       /\ descending vs
       /\ exists rest,
            Permutation (rows top ++ rest)
              (map (cleaned_row (world [] bare_page) 1 tied_rows)
                 (filter (parses (world [] bare_page) 1 tied_rows)
                    (rows tied_rows)))
            /\ Forall (fun r => exists q, cell_at 1 r = CNum q
                                          /\ Forall (fun v => num_le q v) vs)
                 rest.
Proof.
  split; [reflexivity|].
  exact (proj1 (ranked_subset_size_and_order (world [] bare_page) tied_rows 1
                  eq_refl)).
Defined.

(** Three valid rows out of five: exactly those three, in descending order,
    the tie in the order of the dataset. *)
Example ranked_three_valid :
  option_map (fun top => map (fun r => (label r, cell_at 1 r)) (rows top))
    (returned (clean_and_analyze_population_data (world [] bare_page)
                 (PyFrame mixed_rows)))
  = Some [(0, CNum 1234567); (2, CNum 70); (3, CNum 70)].
Proof. reflexivity. Qed.

(** Twelve rows that all parse: ten are returned. *)
Example ranked_ten_of_twelve :
  option_map (fun top => List.length (rows top))
    (returned (clean_and_analyze_population_data (world [] bare_page)
                 (PyFrame tied_rows)))
  = Some 10.
Proof. reflexivity. Qed.

(** Lines 41-43 on a text of digits, commas and trailing markers. *)
Lemma cleaned_text_digits w body marks :
  separated_digits body = true ->
  forallb marker_digits marks = true ->
  cleaned_text w (CStr (body ++ footnotes marks)) = Some (digits_of body).
Proof.
  intros Hb Hm. apply andb_true_iff in Hb as [Hall Hsome].
  unfold cleaned_text. cbn [astype_text]. f_equal.
  rewrite remove_commas_app, (remove_commas_footnotes marks Hm).
  rewrite (remove_commas_separated body Hall). unfold remove_footnotes.
  rewrite (sub_markers_digits _ _ (digits_of_digits body)).
  rewrite (sub_markers_footnotes marks Hm).
  induction (digits_of body) as [|c s IH]; simpl; congruence.
Qed.

Lemma decimal_value_nonneg s : (0 <= decimal_value s)%Z.
Proof.
  induction s as [|c s IH]; cbn [decimal_value]; [lia|].
  assert (0 <= digit_value c)%Z.
  { unfold digit_value. destruct (is_digit c); lia. }
  assert (0 <= 10 ^ Z.of_nat (String.length s))%Z by (apply Z.pow_nonneg; lia).
  nia.
Qed.

(** The coercion of the sample worlds reads small integers exactly. *)
Lemma sample_reads_digits get read soup dtype :
  reads_digits_exactly (sample_web get read soup dtype).
Proof.
  intros column s Hd Hne Hb. cbn [to_numeric sample_web]. unfold read_integers.
  rewrite (integer_literal_digits s Hd Hne).
  destruct (forallb _ column); [reflexivity|].
  unfold float64. pose proof (decimal_value_nonneg s) as P.
  rewrite Z.abs_eq by exact P.
  apply Z.ltb_lt in Hb. now rewrite Hb.
Qed.

(** C2, as the code has it.  For a value made of digits and separating
    commas followed by footnote markers [[digits]], lines 41-43 leave exactly
    the digits, and the cell becomes the number [pd.to_numeric] reads from
    that run of digits in its series: the integer written when it is below
    2^53.  The cell "1,234,567[3]" becomes 1234567. *)
Theorem separators_and_markers_removed (w : Web) (body : string)
  (marks : list string) :
  separated_digits body = true ->
  forallb marker_digits marks = true ->
  cleaned_text w (CStr (body ++ footnotes marks)) = Some (digits_of body)
  /\ (forall (d : DataFrame) (k : nat) (r : Row) (q : Number),
        In r (rows d) ->
        k < List.length (cells r) ->
        cell_at k r = CStr (body ++ footnotes marks) ->
        to_numeric w (column_texts w k d) (digits_of body) = Some q ->
        In (set_cell k (CNum q) r) (rows (clean_population w k d)))
  /\ (reads_digits_exactly w ->
      (decimal_value (digits_of body) < 2 ^ 53)%Z ->
      forall (d : DataFrame) (k : nat) (r : Row),
        In r (rows d) ->
        k < List.length (cells r) ->
        cell_at k r = CStr (body ++ footnotes marks) ->
        In (set_cell k (CNum (inject_Z (decimal_value (digits_of body)))) r)
           (rows (clean_population w k d)))
  /\ In (mkRow 0 [CStr "A"; CNum 1234567; CStr "Asia"])
        (rows (clean_population (world [] bare_page) 1 mixed_rows)).
Proof.
  intros Hb Hm. pose proof (cleaned_text_digits w body marks Hb Hm) as E.
  assert (G : forall (d : DataFrame) (k : nat) (r : Row) (q : Number),
            In r (rows d) ->
            k < List.length (cells r) ->
            cell_at k r = CStr (body ++ footnotes marks) ->
            to_numeric w (column_texts w k d) (digits_of body) = Some q ->
            In (set_cell k (CNum q) r) (rows (clean_population w k d))).
  { intros d k r q Hr Hk Hc Hq. rewrite clean_population_rows. cbn [rows].
    assert (V : value_of w k d r = Some q).
    { unfold value_of. apply Nat.ltb_lt in Hk. now rewrite Hk, Hc, E. }
    replace (set_cell k (CNum q) r) with (cleaned_row w k d r)
      by (unfold cleaned_row; now rewrite V).
    apply in_map. apply filter_In. split; [exact Hr|].
    unfold parses. now rewrite V. }
  split; [exact E|]. split; [exact G|].
  split; [|left; vm_compute; reflexivity].
  intros R B d k r Hr Hk Hc. apply (G d k r _ Hr Hk Hc).
  apply R; [apply digits_of_digits | | exact B].
  apply digits_of_nonempty. now apply andb_true_iff in Hb as [_ Hb].
Qed.

Lemma separators_and_markers_removed_witness :
  separated_digits "1,234,567" = true
  /\ forallb marker_digits ["3"] = true
  /\ (decimal_value (digits_of "1,234,567") < 2 ^ 53)%Z
  /\ cleaned_text (world [] bare_page) (CStr "1,234,567[3]") = Some "1234567"
  /\ In (mkRow 0 [CStr "A"; CNum 1234567; CStr "Asia"])
        (rows (clean_population (world [] bare_page) 1 mixed_rows)).
Proof.
  assert (B : (decimal_value (digits_of "1,234,567") < 2 ^ 53)%Z)
    by (vm_compute; reflexivity).
  split; [reflexivity|]. split; [reflexivity|]. split; [exact B|].
  pose proof (separators_and_markers_removed (world [] bare_page)
                "1,234,567" ["3"] eq_refl eq_refl) as H.
  split; [exact (proj1 H)|].
  exact (proj1 (proj2 (proj2 H))
           (sample_reads_digits _ _ _ _) B mixed_rows 1
           (mkRow 0 [CStr "A"; CStr "1,234,567[3]"; CStr "Asia"])
           (or_introl eq_refl) (le_n_S _ _ (le_n_S _ _ (le_0_n _))) eq_refl).
Defined.

(** C2 as stated fails: the value "9007199254740993[1]" is a run of digits
    with a marker, and beside a text that is no number the column is held as
    float64, where the cell becomes 9007199254740992, not the integer
    written. *)
Lemma large_value_rounded :
  separated_digits "9007199254740993" = true
  /\ forallb marker_digits ["1"] = true
  /\ decimal_value (digits_of "9007199254740993") = 9007199254740993%Z
  /\ rows (clean_population (world [] bare_page) 1 large_rows)
     = [mkRow 0 [CStr "A"; CNum 9007199254740992]]
  /\ ~ In (mkRow 0 [CStr "A"; CNum 9007199254740993])
          (rows (clean_population (world [] bare_page) 1 large_rows)).
Proof.
  split; [reflexivity|]. split; [reflexivity|].
  split; [vm_compute; reflexivity|].
  assert (E : rows (clean_population (world [] bare_page) 1 large_rows)
              = [mkRow 0 [CStr "A"; CNum 9007199254740992]])
    by (vm_compute; reflexivity).
  split; [exact E|]. rewrite E. intros [H|[]].
  injection H as H. discriminate H.
Qed.







(** A value read as an infinity is a number: its row is kept and ranked
    first, and the average is infinite. *)
Example infinite_value_kept :
  clean_and_analyze_population_data (world [] bare_page) (PyFrame unbounded_rows)
  = mkCleaned
      (Some (mkFrame (StrIndex ["Country"; "Population"])
               [mkRow 1 [CStr "B"; CNum (Infinite false)];
                mkRow 2 [CStr "C"; CNum 7]; mkRow 0 [CStr "A"; CNum 5]]))
      (PyFrame (mkFrame (StrIndex ["Country"; "Population"])
                  [mkRow 0 [CStr "A"; CNum 5];
                   mkRow 1 [CStr "B"; CNum (Infinite false)];
                   mkRow 2 [CStr "C"; CNum 7]]))
      [Print "Data successfully cleaned and converted to numeric.";
       PrintAverage (Some (Infinite false))].
Proof. vm_compute. reflexivity. Qed.

(** C9. After a successful call the frame of the caller has the same labels;
    its rows are the rows that parse, in their order; in each of them the
    cell of "Population" holds the number [pd.to_numeric] read from the text
    that lines 41-43 made of the original cell, and the row label, the number
    of cells and the cells of the other columns are the original ones. *)
Theorem cleaner_mutates_argument (w : Web) (d : DataFrame) (k : nat) :
  population_at k d = true ->
  exists d',
    argument_after (clean_and_analyze_population_data w (PyFrame d))
    = PyFrame d'
    /\ columns d' = columns d
    /\ Forall2
         (fun r r' =>
            label r' = label r
            /\ List.length (cells r') = List.length (cells r)
            /\ (exists s q,
                  astype_text w (cell_at k r) = CStr s
                  /\ to_numeric w (column_texts w k d)
                       (remove_footnotes (remove_commas s)) = Some q
                  /\ cell_at k r' = CNum q)
            /\ forall j, j <> k -> cell_at j r' = cell_at j r)
         (filter (parses w k d) (rows d)) (rows d').
Proof.
  intros H. rewrite (cleaner_runs w d k H). cbn [argument_after].
  eexists. split; [reflexivity|]. split; [now rewrite clean_population_rows|].
  rewrite clean_population_rows. cbn [rows].
  assert (F : Forall (fun r => parses w k d r = true)
                (filter (parses w k d) (rows d))).
  { apply Forall_forall. intros r Hr. now apply filter_In in Hr. }
  induction F as [|r l Hr _ IH]; cbn [map]; constructor; [|exact IH].
  destruct (parses_cell k w d r Hr) as (q & V & C & L).
  split; [reflexivity|]. split; [apply length_update|]. split.
  - unfold value_of, cleaned_text in V. apply Nat.ltb_lt in L. rewrite L in V.
    destruct (astype_text w (cell_at k r)) as [s| |]; try discriminate.
    now exists s, q.
  - intros j Hj. unfold cleaned_row. now apply cell_at_set_cell_other.
Qed.

Lemma cleaner_mutates_argument_witness :
  population_at 1 mixed_rows = true
  /\ argument_after (clean_and_analyze_population_data (world [] bare_page)
                       (PyFrame mixed_rows))
     = PyFrame
         (mkFrame (StrIndex ["Country/Dependency"; "Population"; "Region"])
            [mkRow 0 [CStr "A"; CNum 1234567; CStr "Asia"];
             mkRow 2 [CStr "C"; CNum 70; CStr "Africa"];
             mkRow 3 [CStr "D"; CNum 70; CStr "Europe"]])
  /\ exists d',
       argument_after (clean_and_analyze_population_data (world [] bare_page)
                         (PyFrame mixed_rows))
       = PyFrame d'
       /\ columns d' = columns mixed_rows
       /\ Forall2
            (fun r r' =>
               label r' = label r
               /\ List.length (cells r') = List.length (cells r)
               /\ (exists s q,
                     astype_text (world [] bare_page) (cell_at 1 r) = CStr s
                     /\ to_numeric (world [] bare_page)
                          (column_texts (world [] bare_page) 1 mixed_rows)
                          (remove_footnotes (remove_commas s)) = Some q
                     /\ cell_at 1 r' = CNum q)
               /\ forall j, j <> 1 -> cell_at j r' = cell_at j r)
            (filter (parses (world [] bare_page) 1 mixed_rows)
               (rows mixed_rows)) (rows d').
Proof.
  split; [reflexivity|]. split; [vm_compute; reflexivity|].
  exact (cleaner_mutates_argument (world [] bare_page) mixed_rows 1 eq_refl).
Defined.

(** C10. For each number, the rows of the returned frame that hold it are
    the first rows of the cleaned dataset that hold it, in the same order: of
    rows with equal populations the earlier ones are kept. *)
Theorem ties_keep_earlier_rows (w : Web) (d : DataFrame) (k : nat) :
  population_at k d = true ->
  exists top d',
    returned (clean_and_analyze_population_data w (PyFrame d)) = Some top
    /\ argument_after (clean_and_analyze_population_data w (PyFrame d))
       = PyFrame d'
    /\ forall v, initial (with_value k v (rows top)) (with_value k v (rows d')).
Proof.
  intros H. rewrite (cleaner_runs w d k H). cbn [returned argument_after].
  eexists; eexists. split; [reflexivity|]. split; [reflexivity|].
  intros v. rewrite nlargest_cleaned, clean_population_rows. cbn [rows].
  set (l := map (cleaned_row w k d) (filter (parses w k d) (rows d))).
  exists (with_value k v (skipn 10 (sort_desc k l))).
  rewrite <- (sort_desc_with_value k v l).
  rewrite <- (firstn_skipn 10 (sort_desc k l)) at 1.
  unfold with_value. apply filter_app.
Qed.

(** Twelve rows parse; three of them hold 50 and compete for the tenth
    place: the returned rows are those labelled 0 to 9, the earliest of the
    three among them. *)
Lemma ties_keep_earlier_rows_witness :
  population_at 1 tied_rows = true
  /\ option_map (fun top => map label (rows top))
       (returned (clean_and_analyze_population_data (world [] bare_page)
                    (PyFrame tied_rows)))
     = Some [0; 1; 2; 3; 4; 5; 6; 7; 8; 9]
  /\ exists top d',
       returned (clean_and_analyze_population_data (world [] bare_page)
                   (PyFrame tied_rows)) = Some top
       /\ argument_after (clean_and_analyze_population_data
                            (world [] bare_page) (PyFrame tied_rows))
          = PyFrame d'
       /\ forall v, initial (with_value 1 v (rows top))
                      (with_value 1 v (rows d')).
Proof.
  split; [reflexivity|]. split; [vm_compute; reflexivity|].
  exact (ties_keep_earlier_rows (world [] bare_page) tied_rows 1 eq_refl).
Defined.

(** ** The label column of the chart *)

Section Labels.







Variables (w : Web) (d : DataFrame) (names : list string).
Hypothesis Hnames : NoDup names.







End Labels.




(** ** The table extractor *)

Section Extractor.

Lemma bind_value {A B} (a : A) (k : A -> M B) : bind ([], inr a) k = k a.
Proof. unfold bind. now destruct (k a). Qed.

Lemma first_population_table_found before t after :
  Forall (fun u => text_labelled u = true /\ population_table u = false) before ->
  text_labelled t = true ->
  population_table t = true ->
  first_population_table (before ++ t :: after)
  = ([Print "Found the correct table with the 'Population' column."],
     inr (Some (stripped t))).
Proof.
  unfold text_labelled, population_table, stripped.
  induction 1 as [|u l [Hu Pu] _ IH]; intros Ht Pt.
  - cbn [app first_population_table].
    destruct (columns t) as [names|]; [|discriminate].
    cbn [str_strip call bind columns] in *. now rewrite Pt.
  - cbn [app first_population_table].
    destruct (columns u) as [names|]; [|discriminate].
    cbn [str_strip call bind columns] in *. rewrite Pu.
    rewrite (IH Ht Pt). reflexivity.
Qed.

Lemma first_population_table_none tables :
  Forall (fun u => text_labelled u = true /\ population_table u = false) tables ->
  first_population_table tables = ([], inr None).
Proof.
  unfold text_labelled, population_table, stripped.
  induction 1 as [|u l [Hu Pu] _ IH]; [reflexivity|].
  cbn [first_population_table].
  destruct (columns u) as [names|]; [|discriminate].
  cbn [str_strip call bind columns] in *. rewrite Pu, IH. reflexivity.
Qed.

(** A table without text labels stops the loop with an exception, whatever
    follows it. *)
Lemma first_population_table_raises before t after :
  Forall (fun u => text_labelled u = true /\ population_table u = false) before ->
  text_labelled t = false ->
  first_population_table (before ++ t :: after)
  = ([], inl (PyException "Can only use .str accessor with string values!")).
Proof.
  unfold text_labelled, population_table, stripped.
  induction 1 as [|u l [Hu Pu] _ IH]; intros Ht.
  - cbn [app first_population_table].
    destruct (columns t) as [|labels]; [discriminate|]. reflexivity.
  - cbn [app first_population_table].
    destruct (columns u) as [names|]; [|discriminate].
    cbn [str_strip call bind columns] in *. rewrite Pu.
    rewrite (IH Ht). reflexivity.
Qed.

Variables (w : Web) (url : string) (response : Response)
  (tables : list DataFrame).
Hypothesis Hget : requests_get w url = inr response.
Hypothesis Hstatus : ok_status response = true.
Hypothesis Hread : read_html w (text response) = inr tables.

Lemma raise_for_status_ok : raise_for_status response = ret tt.
Proof.
  unfold raise_for_status. unfold ok_status in Hstatus.
  apply negb_true_iff in Hstatus. now rewrite Hstatus.
Qed.

Lemma scrape_body_fetched :
  scrape_body w url
  = (print (PrintTablesFound (List.length tables)) ;;;
     found <- first_population_table tables ;;
     match found with
     | Some table => ret table
     | None =>
         print (Print "Could not find a table with the 'Population' column.") ;;;
         ret empty_frame
     end).
Proof.
  unfold scrape_body. rewrite Hget. unfold call. rewrite bind_value.
  rewrite raise_for_status_ok. unfold ret at 1. rewrite bind_value.
  rewrite Hread. now rewrite bind_value.
Qed.

(** When every table up to the first one with a "Population" label has text
    labels, that table is returned, with its labels stripped. *)
Lemma scrape_first_population_table before t after :
  tables = before ++ t :: after ->
  Forall (fun u => text_labelled u = true /\ population_table u = false) before ->
  text_labelled t = true ->
  population_table t = true ->
  snd (scrape_wiki_tables w url) = inr (stripped t).
Proof.
  intros E F Ht Pt. unfold scrape_wiki_tables.
  rewrite scrape_body_fetched, E.
  rewrite (first_population_table_found before t after F Ht Pt). reflexivity.
Qed.

(** When every table has text labels and none is labelled "Population", the
    empty frame is returned. *)
Lemma scrape_no_population_table :
  Forall (fun u => text_labelled u = true /\ population_table u = false) tables ->
  snd (scrape_wiki_tables w url) = inr empty_frame.
Proof.
  intros F. unfold scrape_wiki_tables.
  rewrite scrape_body_fetched, (first_population_table_none tables F).
  reflexivity.
Qed.

End Extractor.

(** C4, where it holds and where it does not.  On a page whose first table
    has no header row and whose second table has a "Population" column, the
    extractor returns the empty frame: stripping the labels of the first
    table raises, and the handler of line 31 ends the search.  On the same
    page without the first table, the second table is returned. *)
Theorem scrape_stops_at_unlabelled_table :
  population_table mixed_rows = true
  /\ population_table unlabelled_table = false
  /\ scrape_wiki_tables (world [unlabelled_table; mixed_rows] bare_page) "u"
     = ([Print "Attempting to scrape tables from: u";
         PrintTablesFound 2;
         Print
           "Error scraping tables: Can only use .str accessor with string values!"],
        inr empty_frame)
  /\ scrape_wiki_tables (world [mixed_rows] bare_page) "u"
     = ([Print "Attempting to scrape tables from: u";
         PrintTablesFound 1;
         Print "Found the correct table with the 'Population' column."],
        inr mixed_rows).
Proof. repeat split. Qed.

(** Labels are compared after stripping, and the returned table carries the
    stripped labels; tables without the label are passed over. *)
Example scrape_strips_labels :
  scrape_wiki_tables
    (world [capitals_table; padded_table; mixed_rows] bare_page) "u"
  = ([Print "Attempting to scrape tables from: u";
      PrintTablesFound 3;
      Print "Found the correct table with the 'Population' column."],
     inr (mkFrame (StrIndex ["Country"; "Population"])
            [mkRow 0 [CStr "A"; CStr "5"]])).
Proof. reflexivity. Qed.

(** ** The section analyzer *)

(** The headings the loop visits are the matching nodes of the page, in
    document order. *)
Lemma located_descendants : forall n after,
  map fst (located after n) = descendants n.
Proof.
  fix IH 1. intros [name attrs cs|s] after; [|reflexivity].
  cbn [located descendants].
  induction cs as [|c rest IHcs]; [reflexivity|].
  cbn [map fst]. rewrite map_app, (IH c rest), IHcs. reflexivity.
Qed.

Lemma section_headers_find_all soup :
  map fst (section_headers soup) = filter is_headline (descendants soup).
Proof.
  unfold section_headers. rewrite <- (located_descendants soup []).
  induction (located [] soup) as [|h l IH]; [reflexivity|].
  cbn [filter map]. destruct (is_headline (fst h)); cbn [map]; now rewrite IH.
Qed.

Section Analyzer.

Lemma count_attributes_value name content :
  count_attributes_in_section name content
  = ([PrintSection name
        (fst (fst (fst (section_counts content))))
        (snd (fst (fst (section_counts content))))
        (snd (fst (section_counts content)))
        (snd (section_counts content))], inr tt).
Proof.
  unfold count_attributes_in_section.
  now destruct (section_counts content) as [[[p h] i] n].
Qed.

Lemma analyze_header_value h : snd (analyze_header h) = inr tt.
Proof.
  destruct h as [span after]. unfold analyze_header.
  destruct (find_next_sibling "div" after);
    [now rewrite count_attributes_value | reflexivity].
Qed.

(** The loop runs to its end: its log is the logs of its turns, one after the
    other. *)
Lemma for_each_analyze_header l :
  for_each analyze_header l
  = (flat_map (fun h => fst (analyze_header h)) l, inr tt).
Proof.
  induction l as [|h l IH]; [reflexivity|].
  cbn [for_each flat_map]. rewrite IH.
  pose proof (analyze_header_value h) as V.
  destruct (analyze_header h) as [out r]. cbn [snd fst] in *. subst r.
  reflexivity.
Qed.

Variables (w : Web) (url : string) (response : Response) (soup : Node).
Hypothesis Hget : requests_get w url = inr response.
Hypothesis Hstatus : ok_status response = true.
Hypothesis Hsoup : BeautifulSoup w (text response) = inr soup.

Lemma analyze_body_fetched :
  analyze_body w url
  = match section_headers soup with
    | [] =>
        print (Print "No main sections found. Analyzing the entire page.") ;;;
        match find_with "div" "id" "mw-content-text" soup with
        | Some body_content =>
            count_attributes_in_section "Main Content" body_content
        | None => ret tt
        end
    | headers => for_each analyze_header headers
    end.
Proof.
  unfold analyze_body. rewrite Hget. unfold call. rewrite bind_value.
  rewrite (raise_for_status_ok response Hstatus). unfold ret at 1.
  rewrite bind_value. rewrite Hsoup. now rewrite bind_value.
Qed.

Lemma analyze_without_headings :
  section_headers soup = [] ->
  analyze_page_content w url
  = (Print ("Analyzing page content for: " ++ url)
     :: Print "No main sections found. Analyzing the entire page."
     :: match find_with "div" "id" "mw-content-text" soup with
        | Some body_content =>
            fst (count_attributes_in_section "Main Content" body_content)
        | None => []
        end,
     inr tt).
Proof.
  intros H. unfold analyze_page_content. rewrite analyze_body_fetched, H.
  destruct (find_with "div" "id" "mw-content-text" soup) as [body|];
    [rewrite count_attributes_value|]; reflexivity.
Qed.

Lemma analyze_with_headings :
  section_headers soup <> [] ->
  analyze_page_content w url
  = (Print ("Analyzing page content for: " ++ url)
     :: flat_map (fun h => fst (analyze_header h)) (section_headers soup),
     inr tt).
Proof.
  intros H. unfold analyze_page_content. rewrite analyze_body_fetched.
  destruct (section_headers soup) as [|h l] eqn:E; [congruence|].
  rewrite for_each_analyze_header. reflexivity.
Qed.

End Analyzer.

(** C6, as the code has it.  On a fetched page without heading markers: if
    the page has an element [div] with id [mw-content-text], the analyzer
    reports one section, "Main Content", with the counts of that element; if
    it has none, the analyzer reports no section. *)
Theorem main_content_section (w : Web) (url : string) (response : Response)
  (soup : Node) :
  requests_get w url = inr response ->
  ok_status response = true ->
  BeautifulSoup w (text response) = inr soup ->
  section_headers soup = [] ->
  snd (analyze_page_content w url) = inr tt
  /\ (forall body,
        find_with "div" "id" "mw-content-text" soup = Some body ->
        sections (fst (analyze_page_content w url))
        = [PrintSection "Main Content"
             (List.length (find_all "p" body))
             (sum (map (fun p => List.length (find_all "a" p))
                     (find_all "p" body)))
             (sum (map (fun p => List.length (find_all "img" p))
                     (find_all "p" body)))
             (sum (map (fun p => count_words false (get_text p))
                     (find_all "p" body)))])
  /\ (find_with "div" "id" "mw-content-text" soup = None ->
      sections (fst (analyze_page_content w url)) = []).
Proof.
  intros Hg Hs Hp Hh.
  rewrite (analyze_without_headings w url response soup Hg Hs Hp Hh).
  split; [reflexivity|]. split.
  - intros body Hb. rewrite Hb. reflexivity.
  - intros Hb. rewrite Hb. reflexivity.
Qed.

Lemma main_content_section_witness :
  section_headers plain_page = []
  /\ sections (fst (analyze_page_content (world [] plain_page) "u"))
     = [PrintSection "Main Content" 2 1 1 2].
Proof.
  split; [reflexivity|].
  refine (proj1 (proj2 (main_content_section (world [] plain_page) "u"
                          (mkResponse 200 "<html>") plain_page
                          eq_refl eq_refl eq_refl eq_refl))
            plain_container eq_refl).
Defined.

(** C6 as stated fails: a page without heading markers and without the
    content container is fetched and parsed, and no section is reported. *)
Lemma no_container_no_section :
  requests_get (world [] bare_page) "u" = inr (mkResponse 200 "<html>")
  /\ BeautifulSoup (world [] bare_page) "<html>" = inr bare_page
  /\ section_headers bare_page = []
  /\ analyze_page_content (world [] bare_page) "u"
     = ([Print "Analyzing page content for: u";
         Print "No main sections found. Analyzing the entire page."],
        inr tt)
  /\ ~ exists p h i n,
         In (PrintSection "Main Content" p h i n)
            (fst (analyze_page_content (world [] bare_page) "u")).
Proof.
  repeat split.
  intros (p & h & i & n & [H|[H|[]]]); discriminate.
Qed.

(** C7. On a fetched page with heading markers the analyzer ends normally
    and its log holds, after the opening line, the report of each heading in
    document order; the report of a heading whose parent is followed by no
    [div] is the line saying that no content was found, and nothing is
    counted for it. *)
Theorem heading_without_content_skipped (w : Web) (url : string)
  (response : Response) (soup : Node) :
  requests_get w url = inr response ->
  ok_status response = true ->
  BeautifulSoup w (text response) = inr soup ->
  section_headers soup <> [] ->
  analyze_page_content w url
  = (Print ("Analyzing page content for: " ++ url)
     :: flat_map (fun h => fst (analyze_header h)) (section_headers soup),
     inr tt)
  /\ forall h,
       In h (section_headers soup) ->
       find_next_sibling "div" (snd h) = None ->
       analyze_header h
       = ([Print ("Could not find content for section: " ++ get_text (fst h))],
          inr tt).
Proof.
  intros Hg Hs Hp Hh. split.
  - exact (analyze_with_headings w url response soup Hg Hs Hp Hh).
  - intros [span after] _ Hn. unfold analyze_header. cbn [snd fst] in *.
    now rewrite Hn.
Qed.

Lemma heading_without_content_skipped_witness :
  analyze_page_content (world [] two_sections) "u"
  = ([Print "Analyzing page content for: u";
      PrintSection "History" 1 0 0 4;
      Print "Could not find content for section: Notes"],
     inr tt).
Proof.
  refine (proj1 (heading_without_content_skipped (world [] two_sections) "u"
                   (mkResponse 200 "<html>") two_sections
                   eq_refl eq_refl eq_refl _)).
  discriminate.
Defined.

(** ** Exceptions *)

Lemma try_except_value {A} (body : M A) (handler : Exn -> M A) :
  (forall e, exists out a, handler e = (out, inr a)) ->
  exists out a, try_except body handler = (out, inr a).
Proof.
  intros H. destruct body as [out [e|a]]; cbn [try_except].
  - destruct (H e) as (out' & a & E). rewrite E. now eexists; eexists.
  - now eexists; eexists.
Qed.

Lemma print_then {A} (e : Event) (m : M A) out (a : A) :
  m = (out, inr a) -> (print e ;;; m) = (e :: out, inr a).
Proof. intros H. unfold print, bind. now rewrite H. Qed.

(** C8, as the code has it.  No call of the scraper, of the cleaner or of
    the analyzer ends with an exception, nor a call of the renderer on a frame
    or on [None]: what is raised inside their [try] is caught and reported.
    The scraper returns the empty frame whenever its body raises; the cleaner
    returns [None], reports and leaves its argument as it is when the argument
    is no frame or has no "Population" label, and returns [None] with the
    report of the exception when its body raises. *)
Theorem no_exception_escapes (w : Web) (url : string) (x : PyObj) :
  (exists out df, scrape_wiki_tables w url = (out, inr df))
  /\ (forall out e,
        scrape_body w url = (out, inl e) ->
        scrape_wiki_tables w url
        = (Print ("Attempting to scrape tables from: " ++ url)
           :: out ++ [scrape_report e], inr empty_frame))
  /\ ((x = PyNone \/ (exists n, x = PyInt n)
       \/ exists d, x = PyFrame d /\ has_column "Population" (columns d) = false) ->
      clean_and_analyze_population_data w x
      = mkCleaned None x
          [Print "Data is not a valid DataFrame or 'Population' column is missing."])
  /\ (forall d d' out e,
        x = PyFrame d ->
        has_column "Population" (columns d) = true ->
        clean_body w d = (d', (out, inl e)) ->
        exists msg,
          clean_and_analyze_population_data w x
          = mkCleaned None (PyFrame d')
              (out ++ [Print ("Error during data cleaning or analysis: " ++ msg)]))
  /\ ((forall n, x <> PyInt n) ->
      exists out, create_population_chart w x = (out, inr tt))
  /\ (exists out, analyze_page_content w url = (out, inr tt)).
Proof.
  split; [|split; [|split; [|split; [|split]]]].
  - unfold scrape_wiki_tables.
    destruct (try_except_value (scrape_body w url) scrape_handler)
      as (out & df & E).
    + intros [msg|msg]; now eexists; eexists.
    + exists (Print ("Attempting to scrape tables from: " ++ url) :: out), df.
      now apply print_then.
  - intros out e H. unfold scrape_wiki_tables. rewrite H.
    destruct e as [msg|msg]; reflexivity.
  - intros [H|[(n & H)|(d & H & Hc)]]; subst x; [reflexivity|reflexivity|].
    unfold clean_and_analyze_population_data. now rewrite Hc.
  - intros d d' out e -> Hc B. unfold clean_and_analyze_population_data.
    rewrite Hc, B. destruct e as [msg|msg]; exists msg; reflexivity.
  - intros N. destruct x as [d| |n]; [|now eexists|now elim (N n)].
    unfold create_population_chart. destruct (empty d); [now eexists|].
    destruct (try_except_value (chart_body w d) chart_handler)
      as (out & [] & E); [|now exists out].
    intros [msg|msg]; now eexists; exists tt.
  - unfold analyze_page_content.
    destruct (try_except_value (analyze_body w url) analyze_handler)
      as (out & [] & E).
    + intros [msg|msg]; now eexists; exists tt.
    + exists (Print ("Analyzing page content for: " ++ url) :: out).
      now apply print_then.
Qed.

Lemma no_exception_escapes_witness :
  scrape_body offline "u" = ([], inl (RequestException "ConnectionError"))
  /\ scrape_wiki_tables offline "u"
     = ([Print "Attempting to scrape tables from: u";
         Print "Error accessing the URL: ConnectionError"],
        inr empty_frame).
Proof.
  split; [reflexivity|].
  exact (proj1 (proj2 (no_exception_escapes offline "u" PyNone))
           [] (RequestException "ConnectionError") eq_refl).
Defined.

(** C8 as stated fails.  Line 60 stands outside the [try] of the renderer:
    given an integer, the call ends with an [AttributeError].  And an error can end the process: at the end of the input,
    [input()] raises in the main block, where nothing catches it. *)
Lemma exceptions_that_escape :
  create_population_chart (world [] bare_page) (PyInt 5)
  = ([], inl (PyException "'int' object has no attribute 'empty'"))
  /\ snd (main offline []) = inl EOFError.
Proof. split; reflexivity. Qed.

(** A page without tables: the table parser raises, the scraper reports and
    returns the empty frame.  A frame without a "Population" label, and a
    frame with two of them, given to the cleaner. *)
Example scrape_without_tables :
  scrape_wiki_tables (world [] bare_page) "u"
  = ([Print "Attempting to scrape tables from: u";
      Print "Error scraping tables: No tables found"], inr empty_frame).
Proof. reflexivity. Qed.

Example clean_without_population :
  clean_and_analyze_population_data (world [] bare_page)
    (PyFrame unlabelled_table)
  = mkCleaned None (PyFrame unlabelled_table)
      [Print "Data is not a valid DataFrame or 'Population' column is missing."].
Proof. reflexivity. Qed.

Example clean_two_population_columns :
  returned
    (clean_and_analyze_population_data (world [] bare_page)
       (PyFrame (mkFrame (StrIndex ["Population"; "Population"])
                   [mkRow 0 [CStr "1"; CStr "2"]])))
  = None
  /\ printed
       (clean_and_analyze_population_data (world [] bare_page)
          (PyFrame (mkFrame (StrIndex ["Population"; "Population"])
                      [mkRow 0 [CStr "1"; CStr "2"]])))
     = [Print "Error during data cleaning or analysis: 'DataFrame' object has no attribute 'str'"].
Proof. split; reflexivity. Qed.

(** * Further properties of the code *)

(** ** Cleaning one value: markers anywhere *)

Section CleanValue.

Lemma all_chars_app p a b :
  all_chars p (a ++ b) = all_chars p a && all_chars p b.
Proof.
  induction a as [|c a IH]; simpl; [reflexivity|].
  now rewrite IH, andb_assoc.
Qed.

Lemma separated_marker m :
  separated_digits m = true -> marker_digits (digits_of m) = true.
Proof.
  unfold separated_digits, marker_digits. intros H.
  apply andb_true_iff in H as [_ H].
  rewrite digits_of_digits. simpl.
  pose proof (digits_of_nonempty m H) as N.
  destruct (digits_of m); [congruence|reflexivity].
Qed.

(** Both removals together leave the digits outside the markers. *)
Lemma removals_written ps :
  forallb piece_ok ps = true ->
  remove_footnotes (remove_commas (written ps)) = plain_digits ps.
Proof.
  unfold remove_footnotes.
  induction ps as [|[s|m] t IH]; [reflexivity| |]; cbn [forallb written plain_digits];
    intros H; apply andb_true_iff in H as [Hp Ht]; cbn [piece_ok] in Hp.
  - rewrite remove_commas_app, (remove_commas_separated s Hp).
    rewrite (sub_markers_digits _ _ (digits_of_digits s)). now rewrite IH.
  - change (String "[" m ++ String "]" (written t))%string
      with (("[" ++ m) ++ String "]" (written t))%string.
    rewrite remove_commas_app. cbn [remove_commas].
    change (Ascii.eqb "]" ",") with false. cbv iota.
    change (remove_commas ("[" ++ m)) with (String "[" (remove_commas m)).
    pose proof Hp as Hm. apply andb_true_iff in Hm as [Hall _].
    rewrite (remove_commas_separated m Hall).
    change (String "[" (digits_of m) ++ String "]" (remove_commas (written t)))%string
      with (String "[" (digits_of m) ++ String "]" (remove_commas (written t)))%string.
    rewrite (sub_markers_marker _ _ (separated_marker m Hp)). now apply IH.
Qed.

Lemma plain_digits_digits ps : all_chars is_digit (plain_digits ps) = true.
Proof.
  induction ps as [|[s|m] t IH]; [reflexivity| |exact IH].
  cbn [plain_digits]. now rewrite all_chars_app, digits_of_digits, IH.
Qed.

End CleanValue.

(** X1. Markers between the digits, and markers that list several numbers,
    are removed as well: line 42 deletes the commas before line 43 looks for
    [[digits]], so that [[3,4]] has become [[34]] by then.  Of a value written
    as runs of digits and commas with such markers anywhere, lines 41-43 leave
    the digits outside the markers, a text of digits only, and that text is
    what line 44 reads. *)
Theorem markers_anywhere_removed (w : Web) (ps : list Piece) :
  forallb piece_ok ps = true ->
  cleaned_text w (CStr (written ps)) = Some (plain_digits ps)
  /\ all_chars is_digit (plain_digits ps) = true.
Proof.
  intros H. split; [|apply plain_digits_digits].
  unfold cleaned_text. cbn [astype_text].
  now rewrite (removals_written ps H).
Qed.

Lemma markers_anywhere_removed_witness :
  forallb piece_ok [Digits "1,2"; Marker "3,4"; Digits "5"; Marker "6"] = true
  /\ cleaned_text (world [] bare_page) (CStr "1,2[3,4]5[6]") = Some "125".
Proof.
  split; [reflexivity|].
  exact (proj1 (markers_anywhere_removed (world [] bare_page)
                  [Digits "1,2"; Marker "3,4"; Digits "5"; Marker "6"]
                  eq_refl)).
Defined.

(** ** The cleaner, once more *)

Section CleanerAgain.

Lemma map_label_cleaned w k d l :
  map label (map (cleaned_row w k d) l) = map label l.
Proof. rewrite map_map. apply map_ext. reflexivity. Qed.

Lemma NoDup_filter {A} (f : A -> bool) (g : A -> nat) l :
  NoDup (map g l) -> NoDup (map g (filter f l)).
Proof.
  induction l as [|x l IH]; cbn; [auto|]. intros N.
  inversion N as [|? ? Hx N']; subst.
  destruct (f x); cbn; [|auto]. constructor; [|auto].
  intros Hin. apply Hx. apply in_map_iff in Hin as (y & E & Hy).
  apply filter_In in Hy as [Hy _]. apply in_map_iff. now exists y.
Qed.

Lemma NoDup_firstn {A} (l : list A) n : NoDup l -> NoDup (firstn n l).
Proof.
  intros N. rewrite <- (firstn_skipn n l) in N.
  now apply NoDup_app_remove_r in N.
Qed.

End CleanerAgain.

(** X4. When line 44 stores a number for no row (in particular when the
    table has no rows), the cleaner does not return [None]: it returns a frame
    without rows, empties the frame of the caller and reports a missing
    average; the renderer then answers that frame with "No data to plot." *)
Theorem nothing_parses (w : Web) (d : DataFrame) (k : nat) :
  population_at k d = true ->
  forallb (fun r => negb (parses w k d r)) (rows d) = true ->
  clean_and_analyze_population_data w (PyFrame d)
  = mkCleaned (Some (mkFrame (columns d) []))
      (PyFrame (mkFrame (columns d) []))
      [Print "Data successfully cleaned and converted to numeric.";
       PrintAverage None]
  /\ create_population_chart w (PyFrame (mkFrame (columns d) []))
     = ([Print "No data to plot."], inr tt).
Proof.
  intros H N.
  assert (E : filter (parses w k d) (rows d) = []).
  { induction (rows d) as [|r l IH]; [reflexivity|]. cbn in *.
    apply andb_true_iff in N as [Nr Nl]. apply negb_true_iff in Nr.
    rewrite Nr. now apply IH. }
  split.
  - rewrite (cleaner_runs w d k H). unfold nlargest.
    rewrite clean_population_rows. cbn [rows columns]. now rewrite E.
  - unfold create_population_chart, empty. cbn [rows List.length].
    now rewrite Nat.eqb_refl, orb_true_r.
Qed.

Lemma nothing_parses_witness :
  population_at 1 unparseable_rows = true
  /\ returned (clean_and_analyze_population_data (world [] bare_page)
                 (PyFrame unparseable_rows))
     = Some (mkFrame (columns unparseable_rows) []).
Proof.
  split; [reflexivity|].
  exact (f_equal returned
           (proj1 (nothing_parses (world [] bare_page) unparseable_rows 1
                     eq_refl eq_refl))).
Defined.

(** X5. The rows of the ranked subset carry the row labels of the rows they
    come from: every label of the result is the label of a row of the input
    that parses, and if the labels of the input are distinct, so are those of
    the result and those of the frame after the call. *)
Theorem ranked_labels (w : Web) (d : DataFrame) (k : nat) :
  population_at k d = true ->
  NoDup (map label (rows d)) ->
  exists top d',
    returned (clean_and_analyze_population_data w (PyFrame d)) = Some top
    /\ argument_after (clean_and_analyze_population_data w (PyFrame d))
       = PyFrame d'
    /\ NoDup (map label (rows top))
    /\ map label (rows d') = map label (filter (parses w k d) (rows d))
    /\ incl (map label (rows top)) (map label (rows d')).
Proof.
  intros H N. rewrite (cleaner_runs w d k H). cbn [returned argument_after].
  eexists; eexists. split; [reflexivity|]. split; [reflexivity|].
  rewrite nlargest_cleaned, clean_population_rows. cbn [rows].
  set (l := map (cleaned_row w k d) (filter (parses w k d) (rows d))).
  assert (P : Permutation (map label (sort_desc k l)) (map label l))
    by (apply Permutation_map, sort_desc_perm).
  assert (L : map label l = map label (filter (parses w k d) (rows d)))
    by apply map_label_cleaned.
  split; [|split; [exact L|]].
  - rewrite <- firstn_map. apply NoDup_firstn.
    apply (Permutation_NoDup (Permutation_sym P)). rewrite L.
    now apply NoDup_filter.
  - intros x Hx. rewrite <- firstn_map in Hx. apply in_firstn in Hx.
    now apply (Permutation_in _ P).
Qed.

Lemma ranked_labels_witness :
  NoDup (map label (rows tied_rows))
  /\ exists top d',
       returned (clean_and_analyze_population_data (world [] bare_page)
                   (PyFrame tied_rows)) = Some top
       /\ argument_after (clean_and_analyze_population_data
                            (world [] bare_page) (PyFrame tied_rows))
          = PyFrame d'
       /\ NoDup (map label (rows top))
       /\ map label (rows d')
          = map label (filter (parses (world [] bare_page) 1 tied_rows)
                         (rows tied_rows))
       /\ incl (map label (rows top)) (map label (rows d')).
Proof.
  assert (N : NoDup (map label (rows tied_rows))).
  { change (map label (rows tied_rows)) with (seq 0 12). apply seq_NoDup. }
  split; [exact N|].
  exact (ranked_labels (world [] bare_page) tied_rows 1 eq_refl N).
Defined.

(** ** The scraper, once more *)

Section ScraperAgain.

Lemma rstrip_cons c t :
  rstrip (String c t)
  = match rstrip t with
    | EmptyString => if is_space c then EmptyString else String c EmptyString
    | r => String c r
    end.
Proof. reflexivity. Qed.

Lemma rstrip_again s : rstrip (rstrip s) = rstrip s.
Proof.
  induction s as [|c s IH]; [reflexivity|]. rewrite rstrip_cons.
  destruct (rstrip s) as [|c' r] eqn:E.
  - destruct (is_space c) eqn:Hc; [reflexivity|]. cbn. now rewrite Hc.
  - rewrite rstrip_cons, IH. reflexivity.
Qed.

Lemma lstrip_head s :
  match lstrip s with
  | EmptyString => True
  | String c _ => is_space c = false
  end.
Proof.
  induction s as [|c s IH]; [exact I|]. cbn [lstrip].
  destruct (is_space c) eqn:Hc; [exact IH|exact Hc].
Qed.

Lemma rstrip_head c s :
  is_space c = false -> exists r, rstrip (String c s) = String c r.
Proof.
  intros Hc. cbn [rstrip]. destruct (rstrip s) as [|c' r].
  - rewrite Hc. now eexists.
  - now eexists.
Qed.

(** Stripping a stripped label changes nothing. *)
Lemma strip_again s : strip (strip s) = strip s.
Proof.
  unfold strip. pose proof (lstrip_head s) as H.
  destruct (lstrip s) as [|c t]; [reflexivity|].
  destruct (rstrip_head c t H) as [r E].
  rewrite E. cbn [lstrip]. rewrite H. rewrite <- E. apply rstrip_again.
Qed.

Lemma first_population_table_result tables : forall out t',
  first_population_table tables = (out, inr (Some t')) ->
  exists t, In t tables /\ population_table t = true /\ t' = stripped t
            /\ exists names, columns t = StrIndex names.
Proof.
  induction tables as [|t l IH]; intros out t' H; [discriminate|].
  cbn [first_population_table] in H.
  destruct (columns t) as [names|labels] eqn:C; [|discriminate].
  cbn [str_strip columns] in H. unfold call in H. rewrite bind_value in H.
  destruct (has_column "Population" (StrIndex (map strip names))) eqn:P.
  - exists t. split; [now left|]. unfold population_table, stripped.
    rewrite C. cbn [columns]. split; [exact P|].
    split; [|now exists names]. cbn in H. now inversion H.
  - destruct (IH out t' H) as (u & Hu & R). exists u. split; [now right|exact R].
Qed.

Lemma raise_for_status_error response :
  ok_status response = false ->
  exists msg, raise_for_status response = raise (RequestException msg).
Proof.
  unfold ok_status, raise_for_status. intros H.
  apply negb_false_iff in H. rewrite H. now eexists.
Qed.

End ScraperAgain.

Lemma scrape_cases (w : Web) (url : string) (out : list Event)
  (df : DataFrame) :
  scrape_wiki_tables w url = (out, inr df) ->
  df = empty_frame
  \/ exists response tables t names,
       requests_get w url = inr response
       /\ ok_status response = true
       /\ read_html w (text response) = inr tables
       /\ In t tables
       /\ columns t = StrIndex names
       /\ df = mkFrame (StrIndex (map strip names)) (rows t)
       /\ In "Population" (map strip names)
       /\ Forall (fun l => strip l = l) (map strip names).
Proof.
  intros H. unfold scrape_wiki_tables in H.
  destruct (requests_get w url) as [e|response] eqn:G.
  { left. unfold scrape_body in H. rewrite G in H.
    destruct e; cbn in H; now inversion H. }
  destruct (ok_status response) eqn:S.
  2:{ left. destruct (raise_for_status_error response S) as [msg R].
      unfold scrape_body in H. rewrite G in H. unfold call in H.
      rewrite bind_value, R in H. cbn in H. now inversion H. }
  destruct (read_html w (text response)) as [e|tables] eqn:R.
  { left. unfold scrape_body in H. rewrite G in H. unfold call in H.
    rewrite bind_value, (raise_for_status_ok response S) in H.
    unfold ret at 1 in H. rewrite bind_value, R in H.
    destruct e; cbn in H; now inversion H. }
  rewrite (scrape_body_fetched w url response tables G S R) in H.
  destruct (first_population_table tables) as [o [e|[t'|]]] eqn:F.
  - left. destruct e; cbn in H; now inversion H.
  - right. destruct (first_population_table_result tables o t' F)
      as (t & Hin & P & E & names & C).
    exists response, tables, t, names.
    assert (D : df = t') by (cbn in H; now inversion H).
    unfold population_table, stripped in *. rewrite C in *. cbn [columns] in P.
    repeat split; auto; try congruence.
    + cbn [has_column] in P. apply existsb_exists in P as (x & Hx & Ex).
      apply String.eqb_eq in Ex. now subst x.
    + apply Forall_forall. intros l Hl.
      apply in_map_iff in Hl as (x & <- & _). apply strip_again.
  - left. cbn in H. now inversion H.
Qed.

(** X6. What the scraper returns is either the empty frame or a table of
    the page: the server answered without error status, the table is one of
    those [pd.read_html] found, it has text labels of which one is
    "Population" once stripped, its rows are untouched, and its labels are
    stripped (stripping them again changes nothing). *)
Theorem scrape_result (w : Web) (url : string) (out : list Event)
  (df : DataFrame) :
  scrape_wiki_tables w url = (out, inr df) ->
  df = empty_frame
  \/ exists response tables t names,
       requests_get w url = inr response
       /\ ok_status response = true
       /\ read_html w (text response) = inr tables
       /\ In t tables
       /\ columns t = StrIndex names
       /\ df = mkFrame (StrIndex (map strip names)) (rows t)
       /\ In "Population" (map strip names)
       /\ Forall (fun l => strip l = l) (map strip names).
Proof. apply scrape_cases. Qed.

Lemma scrape_result_witness :
  scrape_wiki_tables
    (world [capitals_table; padded_table; mixed_rows] bare_page) "u"
  = ([Print "Attempting to scrape tables from: u";
      PrintTablesFound 3;
      Print "Found the correct table with the 'Population' column."],
     inr (mkFrame (StrIndex ["Country"; "Population"])
            [mkRow 0 [CStr "A"; CStr "5"]]))
  /\ (mkFrame (StrIndex ["Country"; "Population"])
        [mkRow 0 [CStr "A"; CStr "5"]] = empty_frame
      \/ exists response tables t names,
           requests_get
             (world [capitals_table; padded_table; mixed_rows] bare_page) "u"
           = inr response
           /\ ok_status response = true
           /\ read_html
                (world [capitals_table; padded_table; mixed_rows] bare_page)
                (text response)
              = inr tables
           /\ In t tables
           /\ columns t = StrIndex names
           /\ mkFrame (StrIndex ["Country"; "Population"])
                [mkRow 0 [CStr "A"; CStr "5"]]
              = mkFrame (StrIndex (map strip names)) (rows t)
           /\ In "Population" (map strip names)
           /\ Forall (fun l => strip l = l) (map strip names)).
Proof.
  split; [reflexivity|].
  exact (scrape_result
           (world [capitals_table; padded_table; mixed_rows] bare_page) "u"
           _ _ eq_refl).
Defined.

(** X7. An answer with an error status (400 to 599) is treated like a
    failed request by both pipelines: [raise_for_status] raises, the handler
    for request errors reports it, the scraper returns the empty frame without
    looking for tables, and the analyzer reports no section. *)
Theorem error_status_reported (w : Web) (url : string) (response : Response) :
  requests_get w url = inr response ->
  ok_status response = false ->
  exists msg,
    scrape_wiki_tables w url
    = ([Print ("Attempting to scrape tables from: " ++ url);
        Print ("Error accessing the URL: " ++ msg)], inr empty_frame)
    /\ analyze_page_content w url
       = ([Print ("Analyzing page content for: " ++ url);
           Print ("Error accessing the URL: " ++ msg)], inr tt).
Proof.
  intros G S. destruct (raise_for_status_error response S) as [msg R].
  exists msg. split.
  - unfold scrape_wiki_tables, scrape_body. rewrite G. unfold call.
    rewrite bind_value, R. reflexivity.
  - unfold analyze_page_content, analyze_body. rewrite G. unfold call.
    rewrite bind_value, R. reflexivity.
Qed.

Lemma error_status_reported_witness :
  ok_status (mkResponse 404 "Not Found") = false
  /\ exists msg,
       scrape_wiki_tables not_found "u"
       = ([Print "Attempting to scrape tables from: u";
           Print ("Error accessing the URL: " ++ msg)], inr empty_frame)
       /\ analyze_page_content not_found "u"
          = ([Print "Analyzing page content for: u";
              Print ("Error accessing the URL: " ++ msg)], inr tt).
Proof.
  split; [reflexivity|].
  exact (error_status_reported not_found "u" (mkResponse 404 "Not Found")
           eq_refl eq_refl).
Defined.

(** ** The renderer, once more *)

Lemma create_population_chart_value w d :
  snd (create_population_chart w (PyFrame d)) = inr tt.
Proof.
  unfold create_population_chart.
  destruct (empty d); [reflexivity|].
  destruct (chart_body w d) as [out [[msg|msg]|[]]]; reflexivity.
Qed.

(** X8. For frames with unique labels, the chart window is shown exactly
    when the argument is a non-empty frame with text labels, a label column is
    selected, the frame has a "Population" column and none of the plotting and
    file calls raises; the log is then the bars of the label column against
    "Population", the saved file, the line that names it, and the window.  A
    file is saved under one name only: [top_10_population.png] in the
    directory [charts] beside the script. *)
Theorem chart_shown_iff (w : Web) (x : PyObj) :
  (forall d names, x = PyFrame d -> columns d = StrIndex names -> NoDup names) ->
  (In Show (fst (create_population_chart w x))
   <-> exists d names col i j,
         x = PyFrame d
         /\ empty d = false
         /\ columns d = StrIndex names
         /\ label_column w d names = Some col
         /\ position col names = Some i
         /\ position "Population" names = Some j
         /\ plt_figure w = None
         /\ pyplot w (get_column i d) (get_column j d) = None
         /\ makedirs w (charts_dir w) = None
         /\ savefig w (file_path w) = None
         /\ show w = None
         /\ create_population_chart w x
            = ([Bar (get_column i d) (get_column j d); SaveFig (file_path w);
                Print ("Chart saved to: " ++ file_path w); Show], inr tt))
  /\ (forall f, In (SaveFig f) (fst (create_population_chart w x)) ->
                f = os_path_join (os_path_join (script_dir w) "charts")
                      "top_10_population.png").
Proof.
  intros _. split; [split|].
  - intros H. destruct x as [d| |n];
      [|cbn in H; intuition discriminate|cbn in H; contradiction].
    unfold create_population_chart in *.
    destruct (empty d) eqn:E; [cbn in H; intuition discriminate|].
    unfold chart_body in *.
    destruct (columns d) as [names|labels] eqn:C;
      [|cbn in H; intuition discriminate].
    destruct (label_column w d names) as [col|] eqn:L;
      [|cbn in H; intuition discriminate].
    destruct (plt_figure w) as [e|] eqn:F;
      [destruct e; cbn in H; intuition discriminate|].
    destruct (position col names) as [i|] eqn:Pi;
      [|cbn in H; intuition discriminate].
    destruct (position "Population" names) as [j|] eqn:Pj;
      [|cbn in H; intuition discriminate].
    destruct (pyplot w (get_column i d) (get_column j d)) as [e|] eqn:P;
      [destruct e; cbn in H; intuition discriminate|].
    set (c := charts_dir w) in *. set (f := file_path w) in *.
    destruct (makedirs w c) as [e|] eqn:Mk;
      [destruct e; cbn in H; intuition discriminate|].
    destruct (savefig w f) as [e|] eqn:Sv;
      [destruct e; cbn in H; intuition discriminate|].
    destruct (show w) as [e|] eqn:Sh;
      [destruct e; cbn in H; intuition discriminate|].
    exists d, names, col, i, j.
    do 11 (split; [reflexivity || assumption|]). reflexivity.
  - intros (d & names & col & i & j & _ & _ & _ & _ & _ & _ & _ & _ & _ & _ & _
            & E).
    rewrite E. cbn. auto.
  - intros f H. change (os_path_join _ "top_10_population.png")
      with (file_path w).
    destruct x as [d| |n];
      [|cbn in H; intuition discriminate|cbn in H; contradiction].
    unfold create_population_chart in *.
    destruct (empty d) eqn:E; [cbn in H; intuition discriminate|].
    unfold chart_body in *.
    destruct (columns d) as [names|labels] eqn:C;
      [|cbn in H; intuition discriminate].
    destruct (label_column w d names) as [col|] eqn:L;
      [|cbn in H; intuition discriminate].
    destruct (plt_figure w) as [e|] eqn:F;
      [destruct e; cbn in H; intuition discriminate|].
    destruct (position col names) as [i|] eqn:Pi;
      [|cbn in H; intuition discriminate].
    destruct (position "Population" names) as [j|] eqn:Pj;
      [|cbn in H; intuition discriminate].
    destruct (pyplot w (get_column i d) (get_column j d)) as [e|] eqn:P;
      [destruct e; cbn in H; intuition discriminate|].
    set (c := charts_dir w) in *. set (g := file_path w) in *.
    destruct (makedirs w c) as [e|] eqn:Mk;
      [destruct e; cbn in H; intuition discriminate|].
    destruct (savefig w g) as [e|] eqn:Sv;
      [destruct e; cbn in H; intuition discriminate|].
    destruct (show w) as [e|] eqn:Sh;
      [destruct e|]; cbn in H;
      (destruct H as [H|[H|H]]; [discriminate H | now injection H |]);
      intuition discriminate.
Qed.

Lemma chart_shown_iff_witness :
  create_population_chart (world [] bare_page) (PyFrame ranked_sample)
  = ([Bar [CStr "A"; CStr "C"; CStr "D"] [CNum 1234567; CNum 70; CNum 70];
      SaveFig "/home/user/tool/charts/top_10_population.png";
      Print "Chart saved to: /home/user/tool/charts/top_10_population.png";
      Show], inr tt)
  /\ In Show (fst (create_population_chart (world [] bare_page)
                     (PyFrame ranked_sample))).
Proof.
  split; [vm_compute; reflexivity|].
  refine (proj2 (proj1 (chart_shown_iff (world [] bare_page)
                          (PyFrame ranked_sample) _)) _).
  - intros d names E C. injection E as <-. injection C as <-.
    repeat constructor; simpl; intuition discriminate.
  - exists ranked_sample, ["Country/Dependency"; "Population"; "Region"],
      "Country/Dependency", 0, 1.
    do 11 (split; [reflexivity|]). vm_compute. reflexivity.
Defined.

(** ** The analyzer, once more *)

Section AnalyzerAgain.

Lemma find_skip {A} (f : A -> bool) skipped rest :
  forallb (fun n => negb (f n)) skipped = true ->
  find f (skipped ++ rest) = find f rest.
Proof.
  induction skipped as [|n l IH]; [reflexivity|]. cbn. intros H.
  apply andb_true_iff in H as [Hn Hl]. apply negb_true_iff in Hn.
  rewrite Hn. now apply IH.
Qed.


Lemma analyze_header_one h : List.length (fst (analyze_header h)) = 1.
Proof.
  destruct h as [span after]. unfold analyze_header.
  destruct (find_next_sibling "div" after);
    [now rewrite count_attributes_value | reflexivity].
Qed.

Lemma reports_length (l : list (Node * list Node)) :
  List.length (flat_map (fun h => fst (analyze_header h)) l) = List.length l.
Proof.
  induction l as [|h l IH]; [reflexivity|].
  cbn [flat_map]. rewrite List.length_app, analyze_header_one, IH. reflexivity.
Qed.

Lemma analyze_page_content_value w url :
  snd (analyze_page_content w url) = inr tt.
Proof.
  unfold analyze_page_content.
  destruct (analyze_body w url) as [out [[msg|msg]|[]]]; reflexivity.
Qed.

End AnalyzerAgain.

(** X9. The block analysed for a heading is the first [div] among the
    siblings that follow the parent of the heading: whatever stands before
    that [div] (the paragraphs that follow the heading directly, other
    headings) is passed over and does not change the report. *)
Theorem siblings_before_div_ignored (header_span : Node)
  (skipped rest : list Node) :
  forallb (fun n => negb (is_tag "div" n)) skipped = true ->
  analyze_header (header_span, skipped ++ rest)
  = analyze_header (header_span, rest).
Proof.
  intros H. unfold analyze_header, find_next_sibling.
  now rewrite (find_skip _ skipped rest H).
Qed.

Lemma siblings_before_div_ignored_witness :
  analyze_header
    (Element "span" [("class", AList ["mw-headline"])] [NavigableString "History"],
     [Element "p" [] [NavigableString "Paragraphs after the heading"];
      Element "h3" [] []; plain_container])
  = ([PrintSection "History" 2 1 1 2], inr tt).
Proof.
  exact (siblings_before_div_ignored
           (Element "span" [("class", AList ["mw-headline"])]
              [NavigableString "History"])
           [Element "p" [] [NavigableString "Paragraphs after the heading"];
            Element "h3" [] []]
           [plain_container] eq_refl).
Defined.



(** X11. On a fetched page with headings the analyzer prints one line per
    heading after the opening line: as many as the page has [span] elements
    of class [mw-headline]. *)
Theorem one_report_per_heading (w : Web) (url : string) (response : Response)
  (soup : Node) :
  requests_get w url = inr response ->
  ok_status response = true ->
  BeautifulSoup w (text response) = inr soup ->
  filter is_headline (descendants soup) <> [] ->
  List.length (fst (analyze_page_content w url))
  = S (List.length (filter is_headline (descendants soup))).
Proof.
  intros G S P N. rewrite <- section_headers_find_all in *.
  assert (N' : section_headers soup <> [])
    by (intros E; rewrite E in N; now apply N).
  rewrite (analyze_with_headings w url response soup G S P N').
  cbn [fst List.length]. f_equal. rewrite length_map. apply reports_length.
Qed.

Lemma one_report_per_heading_witness :
  filter is_headline (descendants two_sections) <> []
  /\ List.length (fst (analyze_page_content (world [] two_sections) "u"))
     = S (List.length (filter is_headline (descendants two_sections))).
Proof.
  assert (N : filter is_headline (descendants two_sections) <> [])
    by discriminate.
  split; [exact N|].
  exact (one_report_per_heading (world [] two_sections) "u"
           (mkResponse 200 "<html>") two_sections eq_refl eq_refl eq_refl N).
Defined.

(** ** The main block *)

Section Main.

Lemma lower_char_y c : lower_char c = "y"%char -> c = "y"%char \/ c = "Y"%char.
Proof.
  destruct c as [[] [] [] [] [] [] [] []]; intros H;
    solve [now left | now right | discriminate H].
Qed.

(** The loop goes on for the answers "y" and "Y" and for no other. *)
Lemma lower_is_y d :
  String.eqb (lower d) "y" = true <-> d = "y" \/ d = "Y".
Proof.
  rewrite String.eqb_eq. split.
  - destruct d as [|c [|c' t]]; cbn; intros H; try discriminate.
    injection H as H. destruct (lower_char_y c H); subst; auto.
  - intros [->| ->]; reflexivity.
Qed.

Lemma bind_unit_value {B} (m : M unit) (k : M B) out :
  m = (out, inr tt) -> (m ;;; k) = (out ++ fst k, snd k).
Proof. intros ->. unfold bind. now destruct k. Qed.

Lemma analyze_then {B} w url (k : M B) :
  (analyze_page_content w url ;;; k)
  = (fst (analyze_page_content w url) ++ fst k, snd k).
Proof.
  apply bind_unit_value. pose proof (analyze_page_content_value w url) as V.
  destruct (analyze_page_content w url) as [out r]. cbn in V. now subst r.
Qed.

Lemma print_bind {B} (e : Event) (k : M B) :
  (print e ;;; k) = (e :: fst k, snd k).
Proof. unfold print, bind. now destruct k. Qed.

(** One turn of the loop with the answer read. *)
Lemma loop_turn w url decision rest :
  interactive_loop w (url :: decision :: rest)
  = ((Print url_prompt :: fst (analyze_page_content w url)
      ++ [Print again_prompt])
     ++ fst (if String.eqb (lower decision) "y"
             then interactive_loop w rest else ret tt),
     snd (if String.eqb (lower decision) "y"
          then interactive_loop w rest else ret tt)).
Proof.
  cbn [interactive_loop]. rewrite analyze_then, !print_bind.
  cbn [fst snd app]. now rewrite <- app_assoc.
Qed.

Lemma loop_yes w (turns : list (string * string)) tail :
  Forall (fun t => snd t = "y" \/ snd t = "Y") turns ->
  interactive_loop w (flat_map (fun t => [fst t; snd t]) turns ++ tail)
  = (flat_map (turn_log w) (map fst turns) ++ fst (interactive_loop w tail),
     snd (interactive_loop w tail)).
Proof.
  induction 1 as [|[url d] l Hd _ IH].
  - cbn. now destruct (interactive_loop w tail).
  - cbn [flat_map map fst snd app]. rewrite loop_turn.
    rewrite (proj2 (lower_is_y d) Hd), IH. cbn [fst snd].
    unfold turn_log at 2. now rewrite <- app_assoc.
Qed.

Lemma bind_inr {A B} out (a : A) (k : A -> M B) :
  bind (out, inr a) k = (out ++ fst (k a), snd (k a)).
Proof. unfold bind. now destruct (k a). Qed.

Lemma scrape_value w url :
  exists out df, scrape_wiki_tables w url = (out, inr df).
Proof.
  unfold scrape_wiki_tables.
  destruct (try_except_value (scrape_body w url) scrape_handler)
    as (out & df & E).
  - intros [msg|msg]; now eexists; eexists.
  - rewrite E, print_bind. now eexists; eexists.
Qed.

Lemma after_scrape_value w df : snd (after_scrape w df) = inr tt.
Proof.
  unfold after_scrape. destruct (empty df); [reflexivity|]. cbn [negb].
  cbv zeta. unfold tell. rewrite bind_inr. cbn [snd].
  destruct (returned _) as [top|]; [|reflexivity].
  apply create_population_chart_value.
Qed.

Lemma population_pipeline_scraped w out df :
  scrape_wiki_tables w population_url = (out, inr df) ->
  population_pipeline w = (out ++ fst (after_scrape w df), inr tt).
Proof.
  intros E. unfold population_pipeline. rewrite E, bind_inr.
  now rewrite after_scrape_value.
Qed.

Lemma population_pipeline_value w : snd (population_pipeline w) = inr tt.
Proof.
  destruct (scrape_value w population_url) as (out & df & E).
  now rewrite (population_pipeline_scraped w out df E).
Qed.

Lemma main_after_pipeline w stdin :
  main w stdin
  = (fst (population_pipeline w)
     ++ fst (interactive_loop w stdin ;;; print (Print "Program terminated.")),
     snd (interactive_loop w stdin ;;; print (Print "Program terminated."))).
Proof.
  unfold main. apply bind_unit_value.
  pose proof (population_pipeline_value w) as V.
  destruct (population_pipeline w) as [out r]. cbn in V. now subst r.
Qed.

End Main.

Section MainAgain.

Lemma bind_raise {A B} out e (k : A -> M B) : bind (out, inl e) k = (out, inl e).
Proof. reflexivity. Qed.

Lemma loop_at_end w : interactive_loop w [] = ([Print url_prompt], inl EOFError).
Proof. reflexivity. Qed.

Lemma loop_after_url w url :
  interactive_loop w [url]
  = (Print url_prompt :: fst (analyze_page_content w url) ++ [Print again_prompt],
     inl EOFError).
Proof.
  cbn [interactive_loop]. rewrite analyze_then, !print_bind. reflexivity.
Qed.

Lemma not_yes d : d <> "y" -> d <> "Y" -> String.eqb (lower d) "y" = false.
Proof.
  intros H1 H2. destruct (String.eqb (lower d) "y") eqn:E; [|reflexivity].
  apply lower_is_y in E as [E|E]; contradiction.
Qed.

Lemma positions_absent x names i :
  ~ In x names -> positions_from i x names = [].
Proof.
  revert i. induction names as [|n l IH]; intros i H; [reflexivity|].
  cbn [positions_from]. destruct (String.eqb x n) eqn:E.
  - apply String.eqb_eq in E. exfalso. apply H. now left.
  - cbn [app]. apply IH. intros G. apply H. now right.
Qed.

Lemma positions_unique x names i :
  NoDup names -> In x names -> exists k, positions_from i x names = [k].
Proof.
  intros N. revert i. induction N as [|n l Hn N IH]; intros i H; [destruct H|].
  cbn [positions_from]. destruct (String.eqb x n) eqn:E.
  - apply String.eqb_eq in E. subst n. exists i.
    now rewrite (positions_absent x l (S i) Hn).
  - destruct H as [H|H];
      [apply String.eqb_neq in E; symmetry in H; contradiction|].
    cbn [app]. now apply IH.
Qed.

Lemma unique_population d names :
  columns d = StrIndex names -> NoDup names -> In "Population" names ->
  exists k, population_at k d = true.
Proof.
  intros D N H. destruct (positions_unique "Population" names 0 N H) as [k P].
  exists k. unfold population_at, column_positions. rewrite D, P.
  apply Nat.eqb_refl.
Qed.

End MainAgain.

(** X12. The interactive loop goes on while the answer is "y" or "Y" and
    ends at the first other answer (also "yes" or " y"): the pages asked for
    up to then are analysed one after the other, the lines that follow in the
    input are not read, and the program ends with "Program terminated." *)
Theorem main_stops_at_first_other_answer (w : Web)
  (turns : list (string * string)) (url decision : string)
  (rest : list string) :
  Forall (fun t => snd t = "y" \/ snd t = "Y") turns ->
  decision <> "y" ->
  decision <> "Y" ->
  main w (flat_map (fun t => [fst t; snd t]) turns ++ url :: decision :: rest)
  = (fst (population_pipeline w)
     ++ flat_map (turn_log w) (map fst turns ++ [url])
     ++ [Print "Program terminated."],
     inr tt).
Proof.
  intros Y N1 N2. rewrite main_after_pipeline.
  rewrite (loop_yes w turns _ Y), loop_turn, (not_yes decision N1 N2).
  cbn [fst snd ret]. rewrite bind_inr. cbn [fst snd print].
  rewrite flat_map_app. cbn [flat_map]. fold (turn_log w url).
  now rewrite !app_nil_r, <- !app_assoc.
Qed.

Lemma main_stops_at_first_other_answer_witness :
  main offline ["a"; "Y"; "b"; "yes"; "c"; "y"]
  = (fst (population_pipeline offline)
     ++ flat_map (turn_log offline) ["a"; "b"]
     ++ [Print "Program terminated."],
     inr tt).
Proof.
  refine (main_stops_at_first_other_answer offline [("a", "Y")] "b" "yes"
            ["c"; "y"] _ _ _).
  - constructor; [now right | constructor].
  - discriminate.
  - discriminate.
Defined.

(** X13. When the input ends while the loop still waits for a line (after
    answers "y" or "Y" only), [input()] raises [EOFError]; nothing in the main
    block catches it, so the program ends with that exception and without
    its last line. *)
Theorem main_ends_with_eof (w : Web) (turns : list (string * string))
  (last_url : option string) :
  Forall (fun t => snd t = "y" \/ snd t = "Y") turns ->
  main w (flat_map (fun t => [fst t; snd t]) turns
          ++ match last_url with Some url => [url] | None => [] end)
  = (fst (population_pipeline w)
     ++ flat_map (turn_log w) (map fst turns)
     ++ match last_url with
        | Some url => turn_log w url
        | None => [Print url_prompt]
        end,
     inl EOFError).
Proof.
  intros Y. rewrite main_after_pipeline, (loop_yes w turns _ Y).
  destruct last_url as [url|].
  - rewrite loop_after_url. cbn [fst snd]. rewrite bind_raise. reflexivity.
  - rewrite loop_at_end. cbn [fst snd]. rewrite bind_raise. reflexivity.
Qed.

Lemma main_ends_with_eof_witness :
  main offline ["a"; "y"; "b"]
  = (fst (population_pipeline offline)
     ++ flat_map (turn_log offline) ["a"] ++ turn_log offline "b",
     inl EOFError).
Proof.
  refine (main_ends_with_eof offline [("a", "y")] (Some "b") _).
  constructor; [now left | constructor].
Defined.

(** X14. The first pipeline runs the cleaner and the renderer only on a
    non-empty frame; and since a non-empty frame returned by the scraper has a
    "Population" label, the cleaner then takes its cleaning path: with unique
    labels it returns a frame, never [None], and the renderer is called with
    the ranked subset.  After an empty scrape nothing more is printed. *)
Theorem pipeline_gating (w : Web) (out : list Event) (df : DataFrame) :
  scrape_wiki_tables w population_url = (out, inr df) ->
  (empty df = true -> population_pipeline w = (out, inr tt))
  /\ (empty df = false ->
      (forall names, columns df = StrIndex names -> NoDup names) ->
      exists top,
        returned (clean_and_analyze_population_data w (PyFrame df)) = Some top
        /\ population_pipeline w
           = (out ++ printed (clean_and_analyze_population_data w (PyFrame df))
                  ++ fst (create_population_chart w (PyFrame top)),
              inr tt)).
Proof.
  intros S. rewrite (population_pipeline_scraped w out df S). split.
  - intros E. unfold after_scrape. rewrite E. cbn. now rewrite app_nil_r.
  - intros E N.
    destruct (scrape_cases w population_url out df S)
      as [->|(response & tables & t & names & _ & _ & _ & _ & _ & D & P & _)];
      [discriminate|].
    assert (C : columns df = StrIndex (map strip names)) by now rewrite D.
    destruct (unique_population df (map strip names) C (N _ C) P) as (k & A).
    rewrite (cleaner_runs w df k A). cbn [returned printed].
    eexists. split; [reflexivity|].
    unfold after_scrape. rewrite E. cbn [negb]. cbv zeta.
    rewrite (cleaner_runs w df k A). cbn [returned printed].
    unfold tell. rewrite bind_inr. cbn [fst].
    pose proof (create_population_chart_value w
                  (nlargest 10 k (clean_population w k df))) as V.
    destruct (create_population_chart w _) as [o r]. cbn in *. now subst r.
Qed.

Lemma pipeline_gating_witness :
  exists top,
    returned (clean_and_analyze_population_data
                (world [capitals_table; mixed_rows] bare_page)
                (PyFrame mixed_rows)) = Some top
    /\ population_pipeline (world [capitals_table; mixed_rows] bare_page)
       = ([Print ("Attempting to scrape tables from: " ++ population_url);
           PrintTablesFound 2;
           Print "Found the correct table with the 'Population' column."]
          ++ printed (clean_and_analyze_population_data
                        (world [capitals_table; mixed_rows] bare_page)
                        (PyFrame mixed_rows))
          ++ fst (create_population_chart
                    (world [capitals_table; mixed_rows] bare_page)
                    (PyFrame top)),
          inr tt).
Proof.
  refine (proj2 (pipeline_gating (world [capitals_table; mixed_rows] bare_page)
                   _ mixed_rows eq_refl) eq_refl _).
  intros names E. injection E as <-.
  repeat constructor; simpl; intuition discriminate.
Defined.

